(** * Backup client of the Xen Orchestra provider: a shallow embedding

    The development follows [client/backup.go] and
    [xoa/data_source_backups.go].  Go strings are byte sequences and are
    rendered as [string] (a list of 8-bit [ascii]); Go maps are [gmap]s
    (a nil map and an empty map have the same length and the same
    entries, and the code below only takes their length, ranges over
    them or passes them on); a Go result pair [(value, error)] is kept
    as a pair whose error component is an [option] ([None] is [nil]). *)

From Stdlib Require Import ZArith NArith String Ascii List Lia.
From Stdlib Require Import DecimalString.
From stdpp Require Import base option list gmap strings.

Local Open Scope string_scope.
Local Open Scope list_scope.
Local Open Scope nat_scope.

(** ** Bytes and Go's JSON encoding of a string *)

Module Json.

Definition code (a : ascii) : N := N_of_ascii a.
Definition byte (n : N) : ascii := ascii_of_N n.

Fixpoint codes (s : string) : list N :=
  match s with
  | EmptyString => []
  | String a r => code a :: codes r
  end.

Fixpoint bytes (l : list N) : string :=
  match l with
  | [] => EmptyString
  | n :: r => String (byte n) (bytes r)
  end.

(** [utf8.RuneSelf], [utf8.RuneError] and the tables of [unicode/utf8]. *)
Definition RuneSelf : N := 0x80.
Definition RuneError : N := 0xFFFD.

Definition first (b : N) : N :=
  if (b <? 0x80)%N then 0xF0          (* as: ASCII *)
  else if (b <? 0xC2)%N then 0xF1     (* xx: invalid *)
  else if (b <? 0xE0)%N then 0x02     (* s1 *)
  else if (b =? 0xE0)%N then 0x13     (* s2 *)
  else if (b <? 0xED)%N then 0x03     (* s3 *)
  else if (b =? 0xED)%N then 0x23     (* s4 *)
  else if (b <? 0xF0)%N then 0x03     (* s3 *)
  else if (b =? 0xF0)%N then 0x34     (* s5 *)
  else if (b <? 0xF4)%N then 0x04     (* s6 *)
  else if (b =? 0xF4)%N then 0x44     (* s7 *)
  else 0xF1.                          (* xx *)

Definition acceptRanges (i : N) : N * N :=
  match i with
  | 0 => (0x80, 0xBF)
  | 1 => (0xA0, 0xBF)
  | 2 => (0x80, 0x9F)
  | 3 => (0x90, 0xBF)
  | 4 => (0x80, 0x8F)
  | _ => (0, 0)
  end%N.

Definition cont (b : N) : bool := ((0x80 <=? b) && (b <=? 0xBF))%N.

(** [utf8.DecodeRuneInString]: the rune at the head of [s] and the
    number of bytes it takes. *)
Definition DecodeRuneInString (s : list N) : N * nat :=
  match s with
  | [] => (RuneError, 0)
  | s0 :: t =>
    let x := first s0 in
    if (0xF0 <=? x)%N then
      ((if N.testbit x 0 then RuneError else s0), 1)
    else
      let sz := N.to_nat (N.land x 7) in
      let '(lo, hi) := acceptRanges (N.shiftr x 4) in
      if (length s <? sz)%nat then (RuneError, 1) else
      match t with
      | [] => (RuneError, 1)
      | s1 :: t1 =>
        if ((s1 <? lo) || (hi <? s1))%N then (RuneError, 1) else
        if (sz <=? 2)%nat then
          (N.lor (N.shiftl (N.land s0 0x1F) 6) (N.land s1 0x3F), 2)
        else
        match t1 with
        | [] => (RuneError, 1)
        | s2 :: t2 =>
          if negb (cont s2) then (RuneError, 1) else
          if (sz <=? 3)%nat then
            (N.lor (N.lor (N.shiftl (N.land s0 0x0F) 12)
                          (N.shiftl (N.land s1 0x3F) 6))
                   (N.land s2 0x3F), 3)
          else
          match t2 with
          | [] => (RuneError, 1)
          | s3 :: _ =>
            if negb (cont s3) then (RuneError, 1) else
            (N.lor (N.lor (N.lor (N.shiftl (N.land s0 0x07) 18)
                                 (N.shiftl (N.land s1 0x3F) 12))
                          (N.shiftl (N.land s2 0x3F) 6))
                   (N.land s3 0x3F), 4)
          end
        end
      end
  end.

(** [htmlSafeSet] of [encoding/json]: the ASCII bytes copied as they
    are when HTML escaping is on, as it is for [json.Marshal]. *)
Definition htmlSafeSet (b : N) : bool :=
  ((0x20 <=? b) && (b <? 0x80)
   && negb (b =? 0x22) && negb (b =? 0x26) && negb (b =? 0x3C)
   && negb (b =? 0x3E) && negb (b =? 0x5C))%N.

Definition hex (n : N) : N :=
  if (n <? 10)%N then (0x30 + n)%N else (0x61 + (n - 10))%N.

(** The escape written for an ASCII byte outside [htmlSafeSet]. *)
Definition escapeByte (b : N) : list N :=
  if ((b =? 0x5C) || (b =? 0x22))%N then [0x5C; b]%N
  else if (b =? 0x08)%N then [0x5C; 0x62]%N          (* \b *)
  else if (b =? 0x0C)%N then [0x5C; 0x66]%N          (* \f *)
  else if (b =? 0x0A)%N then [0x5C; 0x6E]%N          (* \n *)
  else if (b =? 0x0D)%N then [0x5C; 0x72]%N          (* \r *)
  else if (b =? 0x09)%N then [0x5C; 0x74]%N          (* \t *)
  else [0x5C; 0x75; 0x30; 0x30; hex (N.shiftr b 4); hex (N.land b 0xF)]%N.

(** The loop of [appendString].  [skip] counts the continuation bytes
    of a rune already copied: Go advances [i] by the rune's size, here
    the rune's bytes are written at its first byte and the rest of it
    is passed over. *)
Fixpoint appendLoop (skip : nat) (src : list N) : list N :=
  match src with
  | [] => []
  | b :: rest =>
    match skip with
    | S k => appendLoop k rest
    | O =>
      if (b <? RuneSelf)%N then
        (if htmlSafeSet b then [b] else escapeByte b) ++ appendLoop 0 rest
      else
        let '(c, size) := DecodeRuneInString (take 4 src) in
        if ((c =? RuneError)%N && (size =? 1)%nat) then
          [0x5C; 0x75; 0x66; 0x66; 0x66; 0x64]%N ++ appendLoop 0 rest
        else if ((c =? 0x2028) || (c =? 0x2029))%N then
          [0x5C; 0x75; 0x32; 0x30; 0x32; hex (N.land c 0xF)]%N
            ++ appendLoop (size - 1) rest
        else
          take size src ++ appendLoop (size - 1) rest
    end
  end.

Definition quote : N := 0x22.

Definition appendString (src : string) : string :=
  bytes (quote :: appendLoop 0 (codes src) ++ [quote]).

End Json.

(** ** Errors

    A Go [error] is an interface value: a dynamic type and the text its
    [Error] method gives.  [NotFound] is the client package's own error
    type, the one the callers test with [err.(NotFound)]; [errorString]
    is the type of the values [errors.New] builds; every other error
    type (those of the transport, say) is [otherError] with its name. *)

Inductive errorType :=
| NotFound
| errorString
| otherError (name : string).

Record error := { dynType : errorType; Error : string }.

Module errors.
Definition New (text : string) : error :=
  {| dynType := errorString; Error := text |}.
End errors.

(** The type assertion [_, ok := err.(NotFound)]. *)
Definition isNotFound (err : option error) : bool :=
  match err with
  | Some {| dynType := NotFound |} => true
  | _ => false
  end.

(** [json.Marshal] at a Go string: the string encoder never fails. *)
Definition json_Marshal (v : string) : string * option error :=
  (Json.appendString v, None).

(** ** [FlatResourceSet] *)

Module FlatResourceSet.

Record t := { Id : string }.

Definition String (rs : t) : string := Id rs.

Definition MarshalJSON (rs : t) : string * option error :=
  if (String.length (Id rs) =? 0)%nat then ("null", None)
  else json_Marshal (Id rs).

End FlatResourceSet.

(** ** [VmBackup]

    The fields are those of the struct declaration, followed by
    [PowerState] and [WaitForIps], which [CreateBackup] reads from its
    request.  Go's field [Type] is written [Type_]. *)

Module VmBackup.

Record t := {
  Vms : gmap string string;
  Remotes : gmap string string;
  Type_ : string;
  Id : string;
  Settings : gmap string string;
  Name : string;
  Mode : string;
  PowerState : string;
  WaitForIps : gmap string string
}.

(** The zero value [VmBackup{}]. *)
Definition zero : t :=
  {| Vms := ∅; Remotes := ∅; Type_ := ""; Id := ""; Settings := ∅;
     Name := ""; Mode := ""; PowerState := ""; WaitForIps := ∅ |}.

(** The literal [VmBackup{Id: id}]. *)
Definition withId (id : string) : t :=
  {| Vms := ∅; Remotes := ∅; Type_ := ""; Id := id; Settings := ∅;
     Name := ""; Mode := ""; PowerState := ""; WaitForIps := ∅ |}.

Definition Compare (v other : t) : bool :=
  if negb (String.eqb (Id v) "") && String.eqb (Id v) (Id other) then true
  else if negb (String.eqb (Name v) "") && String.eqb (Name v) (Name other)
  then true
  else false.

End VmBackup.

Definition EnabledState : string := "Enabled".
Definition DisabledState : string := "Disabled".

(** ** The client's collaborators as operations

    [Call], [FindFromGetAllObjects], [waitForPowerStateReached] and
    [waitForIPAssignment] are methods and functions of the client package
    that [backup.go] calls;  [time.Sleep] and [log.Printf] are Go's.  A
    client function is a tree of such operations: each node names the
    operation and continues with whatever the collaborator answered. *)

(** A value of a [map[string]interface{}] parameter map. *)
Inductive PValue :=
| PBool (b : bool)
| PString (s : string)
| PMap (m : gmap string string).

(** The variable an RPC result is decoded into: [&backupId] is a
    [*string], [&success] a [*bool]. *)
Inductive OutTy := OutString | OutBool.

Definition OutVal (out : OutTy) : Type :=
  match out with
  | OutString => string
  | OutBool => bool
  end.

Inductive LogArg :=
| LParams (params : gmap string PValue)
| LBackup (b : VmBackup.t)
| LBackups (bs : list VmBackup.t).

Inductive Op :=
| Printf (format : string) (arg : LogArg)
| Call (method : string) (params : gmap string PValue) (out : OutTy)
| Sleep (d : Z)
| FindFromGetAllObjects (obj : VmBackup.t)
| waitForPowerStateReached (id desiredPowerState : string) (timeout : Z)
| waitForIPAssignment (id : string) (waitForIps : gmap string string)
                      (timeout : Z).

(** What each operation gives back: [Call] leaves a value in its out
    variable and returns an error; the lookup returns the matching
    objects and an error; a wait returns an error. *)
Definition Resp (o : Op) : Type :=
  match o with
  | Printf _ _ => unit
  | Call _ _ out => OutVal out * option error
  | Sleep _ => unit
  | FindFromGetAllObjects _ => list VmBackup.t * option error
  | waitForPowerStateReached _ _ _ => option error
  | waitForIPAssignment _ _ _ => option error
  end.

Inductive Prog (A : Type) : Type :=
| Ret (a : A)
| Vis (o : Op) (k : Resp o → Prog A).
Arguments Ret {A} a.
Arguments Vis {A} o k.

Fixpoint Prog_bind {A B} (f : A → Prog B) (p : Prog A) : Prog B :=
  match p with
  | Ret a => f a
  | Vis o k => Vis o (λ r, Prog_bind f (k r))
  end.

#[export] Instance Prog_mret : MRet Prog := @Ret.
#[export] Instance Prog_mbind : MBind Prog := @Prog_bind.

Definition trigger (o : Op) : Prog (Resp o) := Vis o Ret.

(** [time.Second] in nanoseconds, the unit of [time.Duration]. *)
Definition Second : Z := 1000000000.

(** [%d] at a non-negative [int]. *)
Definition string_of_int (n : nat) : string :=
  NilZero.string_of_uint (Nat.to_uint n).

Section Client.

(** [fmt]'s [%+v] rendering of a request, used in an error text. *)
Variable format_request : VmBackup.t → string.

(** The error [GetBackup] builds with [errors.New] and [fmt.Sprintf]. *)
Definition singleExpected (backupReq : VmBackup.t) (found : nat) : error :=
  errors.New
    ("expected to find a single VmBackup from request "
     +:+ format_request backupReq +:+ ", instead found "
     +:+ string_of_int found).

Definition GetBackup (backupReq : VmBackup.t)
  : Prog (option VmBackup.t * option error) :=
  '(obj, err) ← trigger (FindFromGetAllObjects backupReq);
  match err with
  | Some e => mret (None, Some e)
  | None =>
    let backups := obj in
    (* [len(backups) != 1] is every shape but the one-element list,
       whose element is [backups[0]] *)
    match backups with
    | [b0] =>
      _ ← trigger (Printf "[DEBUG] Found backup: %+v" (LBackup b0));
      mret (Some b0, None)
    | _ =>
      mret (None, Some (singleExpected backupReq (length backups)))
    end
  end.

Definition GetBackups (backup : VmBackup.t)
  : Prog (list VmBackup.t * option error) :=
  '(obj, err) ← trigger (FindFromGetAllObjects backup);
  match err with
  | Some e => mret ([], Some e)
  | None =>
    let backups := obj in
    _ ← trigger (Printf "[DEBUG] Found backups: %+v" (LBackups backups));
    mret (backups, None)
  end.

Definition waitForModifyBackup (id desiredPowerState : string)
    (waitForIps : gmap string string) (timeout : Z)
  : Prog (option error) :=
  if (size waitForIps =? 0)%nat then
    trigger (waitForPowerStateReached id desiredPowerState timeout)
  else
    trigger (waitForIPAssignment id waitForIps timeout).

Definition createParams (backupReq : VmBackup.t) : gmap string PValue :=
  list_to_map [
    ("enabled", PBool false);
    ("type", PString (VmBackup.Type_ backupReq));
    ("name", PString (VmBackup.Name backupReq));
    ("vms", PMap (VmBackup.Vms backupReq));
    ("mode", PString (VmBackup.Mode backupReq));
    ("remotes", PMap (VmBackup.Remotes backupReq));
    ("settings", PMap (VmBackup.Settings backupReq)) ].

Definition CreateBackup (backupReq : VmBackup.t) (createTime : Z)
  : Prog (option VmBackup.t * option error) :=
  let params := createParams backupReq in
  _ ← trigger (Printf "[DEBUG] Backup params for backup.create %#v"
                      (LParams params));
  '(backupId, err) ← trigger (Call "backup.create" params OutString);
  match err with
  | Some e => mret (None, Some e)
  | None =>
    let xsParams : gmap string PValue :=
      list_to_map [ ("id", PString backupId) ] in
    '(success, err) ← trigger (Call "backup.set" xsParams OutBool);
    match err with
    | Some e => mret (None, Some e)
    | None =>
      err ← waitForModifyBackup backupId (VmBackup.PowerState backupReq)
              (VmBackup.WaitForIps backupReq) createTime;
      match err with
      | Some e => mret (None, Some e)
      | None => GetBackup (VmBackup.withId backupId)
      end
    end
  end.

Definition updateParams (backupReq : VmBackup.t) : gmap string PValue :=
  list_to_map [
    ("id", PString (VmBackup.Id backupReq));
    ("enabled", PBool false);
    ("type", PString (VmBackup.Type_ backupReq));
    ("name", PString (VmBackup.Name backupReq));
    ("vms", PMap (VmBackup.Vms backupReq));
    ("mode", PString (VmBackup.Mode backupReq));
    ("remotes", PMap (VmBackup.Remotes backupReq));
    ("settings", PMap (VmBackup.Settings backupReq)) ].

Definition UpdateBackup (backupReq : VmBackup.t)
  : Prog (option VmBackup.t * option error) :=
  let params := updateParams backupReq in
  '(success, err) ← trigger (Call "backup.set" params OutBool);
  match err with
  | Some e => mret (None, Some e)
  | None =>
    _ ← trigger (Sleep (25 * Second));
    GetBackup backupReq
  end.

End Client.

(** ** Running a client function against its collaborators

    A handler answers every operation from a state of the outside world
    [W]; [run] threads that state through a program and records each
    operation with its answer. *)

Definition Handler (W : Type) : Type := ∀ o : Op, W → Resp o * W.

Record Event := { ev_op : Op; ev_resp : Resp ev_op }.

Fixpoint run {W A} (h : Handler W) (p : Prog A) (w : W)
  : A * W * list Event :=
  match p with
  | Ret a => (a, w, [])
  | Vis o k =>
    let '(r, w1) := h o w in
    let '(a, w2, tr) := run h (k r) w1 in
    (a, w2, {| ev_op := o; ev_resp := r |} :: tr)
  end.

Definition result {W A} (x : A * W * list Event) : A := x.1.1.
Definition trace {W A} (x : A * W * list Event) : list Event := x.2.

Definition is_call (o : Op) : bool :=
  match o with Call _ _ _ => true | _ => false end.
Definition is_find (o : Op) : bool :=
  match o with FindFromGetAllObjects _ => true | _ => false end.
Definition is_power_wait (o : Op) : bool :=
  match o with waitForPowerStateReached _ _ _ => true | _ => false end.
Definition is_ip_wait (o : Op) : bool :=
  match o with waitForIPAssignment _ _ _ => true | _ => false end.
Definition is_wait (o : Op) : bool := is_power_wait o || is_ip_wait o.

(** The operations of a trace, without the debug log lines. *)
Definition is_log (o : Op) : bool :=
  match o with Printf _ _ => true | _ => false end.
Definition ops (tr : list Event) : list Op :=
  List.filter (λ o, negb (is_log o)) (ev_op <$> tr).

(** The error a [Call] event came back with. *)
Definition call_error (ev : Event) : option error :=
  match ev_op ev as o return Resp o → option error with
  | Call _ _ _ => λ r, r.2
  | _ => λ _, None
  end (ev_resp ev).

(** The parameter map a [Call] event was sent with. *)
Definition call_params (o : Op) : option (gmap string PValue) :=
  match o with
  | Call _ params _ => Some params
  | _ => None
  end.

(** The answer of a lookup event. *)
Definition find_answer (ev : Event)
  : option (list VmBackup.t * option error) :=
  match ev_op ev as o
        return Resp o → option (list VmBackup.t * option error) with
  | FindFromGetAllObjects _ => λ r, Some r
  | _ => λ _, None
  end (ev_resp ev).

(** A collaborator may also never answer: a partial handler gives
    [None] then, and so does the run. *)
Definition PHandler (W : Type) : Type := ∀ o : Op, W → option (Resp o * W).

Fixpoint prun {W A} (h : PHandler W) (p : Prog A) (w : W)
  : option (A * W * list Event) :=
  match p with
  | Ret a => Some (a, w, [])
  | Vis o k =>
    match h o w with
    | None => None
    | Some (r, w1) =>
      match prun h (k r) w1 with
      | None => None
      | Some (a, w2, tr) => Some (a, w2, {| ev_op := o; ev_resp := r |} :: tr)
      end
    end
  end.

(** ** The state-change waiter

    [StateChangeConf], [WaitForState], [GetBackupPowerState],
    [waitForPowerStateReached] and [waitForIPAssignment] belong to the
    client package but not to [backup.go]; they follow sections 3, 4.1
    to 4.4 and 8 of the specification.  Time is the waiter's own: it
    passes in the sleep between two polls, a refresh takes none. *)

Module Waiter.

(** Modelled from the spec: the verdict of a Condition Predicate
    (section 4.1), still pending, satisfied, or one of the designated
    permanent-failure states. *)
Inductive Verdict :=
| Pending
| Target
| FailureState (name : string).

(** Modelled from the spec: the terminal states of the poll loop
    (section 4.3). *)
Inductive Terminal (V : Type) :=
| Succeeded (v : V)
| Failed (cause : error)
| TimedOut.
Arguments Succeeded {V} v.
Arguments Failed {V} cause.
Arguments TimedOut {V}.

(** Modelled from the spec: the Wait Configuration of section 3
    together with the Refresh Source and Condition Predicate the
    poll loop is configured with (section 2); [StateChangeConf] itself
    is not declared in [backup.go]. *)
Record StateChangeConf (W V : Type) := {
  Refresh : W → (V * option error) * W;
  Evaluate : V → Verdict;
  Describe : V → string;
  PollInterval : Z;
  Timeout : Z;
  RetryBudget : nat
}.
Arguments Refresh {W V} s.
Arguments Evaluate {W V} s.
Arguments Describe {W V} s.
Arguments PollInterval {W V} s.
Arguments Timeout {W V} s.
Arguments RetryBudget {W V} s.

Definition withRefresh {W V} (conf : StateChangeConf W V)
    (refresh : W → (V * option error) * W) : StateChangeConf W V :=
  {| Refresh := refresh; Evaluate := Evaluate conf;
     Describe := Describe conf; PollInterval := PollInterval conf;
     Timeout := Timeout conf; RetryBudget := RetryBudget conf |}.

(** Modelled from the spec: the Poll State of section 3, owned by one
    wait call. *)
Record PollState (V : Type) := {
  last : option V;
  elapsed : Z;
  attempts : nat;
  failures : nat
}.
Arguments last {V} p.
Arguments elapsed {V} p.
Arguments attempts {V} p.
Arguments failures {V} p.

Definition string_of_Z (z : Z) : string :=
  NilZero.string_of_int (Z.to_int z).

Definition unexpectedState (name : string) : error :=
  {| dynType := otherError "UnexpectedStateError";
     Error := "unexpected state '" +:+ name +:+ "'" |}.

Definition timeoutError {V} (conf_describe : V → string)
    (st : PollState V) : error :=
  {| dynType := otherError "TimeoutError";
     Error := "timeout while waiting for state (last state: '"
              +:+ from_option conf_describe "" (last st)
              +:+ "', elapsed: " +:+ string_of_Z (elapsed st) +:+ "ns)" |}.

Section PollLoop.
Context {W V : Type}.

(** Modelled from the spec: the loop of section 4.3, which is not in
    [backup.go].  The first poll is immediate (a condition that
    already holds succeeds without delay); a refresh error counts
    against the retry budget and a successful refresh resets the
    count; the timeout is checked before the loop commits to
    another interval, so a zero or negative timeout gives exactly
    one refresh.  [fuel] bounds the number of polls. *)
Fixpoint poll (fuel : nat) (conf : StateChangeConf W V)
    (st : PollState V) (w : W)
  : option (Terminal V * PollState V * W) :=
  match fuel with
  | O => None
  | S fuel' =>
    let '((v, err), w1) := Refresh conf w in
    let continue (st2 : PollState V) :=
      if (Timeout conf <=? elapsed st2)%Z then Some (TimedOut, st2, w1)
      else poll fuel' conf
             {| last := last st2;
                elapsed := elapsed st2 + PollInterval conf;
                attempts := attempts st2; failures := failures st2 |} w1 in
    match err with
    | Some e =>
      let st2 := {| last := last st; elapsed := elapsed st;
                    attempts := S (attempts st);
                    failures := S (failures st) |} in
      if (RetryBudget conf <? failures st2)%nat
      then Some (Failed e, st2, w1)
      else continue st2
    | None =>
      let st2 := {| last := Some v; elapsed := elapsed st;
                    attempts := S (attempts st); failures := 0 |} in
      match Evaluate conf v with
      | Target => Some (Succeeded v, st2, w1)
      | FailureState name => Some (Failed (unexpectedState name), st2, w1)
      | Pending => continue st2
      end
    end
  end.

Definition start : PollState V :=
  {| last := None; elapsed := 0; attempts := 0; failures := 0 |}.

(** Modelled from the spec: [WaitForState], the entry of the poll
    loop; it gives the observed value or the error, and here also
    the time the wait took. *)
Definition WaitForState (fuel : nat) (conf : StateChangeConf W V)
    (w : W) : option ((option V * option error) * Z * W) :=
  match poll fuel conf start w with
  | None => None
  | Some (Succeeded v, st, w') => Some ((Some v, None), elapsed st, w')
  | Some (Failed e, st, w') => Some ((None, Some e), elapsed st, w')
  | Some (TimedOut, st, w') =>
    Some ((None, Some (timeoutError (Describe conf) st)), elapsed st, w')
  end.

End PollLoop.

(** Modelled from the spec: the poll interval and retry budget of a
    wait mode, which the callers in [backup.go] do not pass. *)
Record Policy := { interval : Z; retryBudget : nat }.

Section Orchestrators.
Context {W : Type}.
Variable format_request : VmBackup.t → string.
(** The remote side, answering the fetches of a refresh. *)
Variable remote : Handler W.
(** The per-interface address map of a fetched object, an attribute
    that is not among the fields [backup.go] declares or reads. *)
Variable Addresses : VmBackup.t → gmap string string.
Variables powerPolicy ipPolicy : Policy.

(** Modelled from the spec: the power-state Refresh Source of
    section 4.2, which [backup.go] calls but does not define: one
    fetch of the object by identity, projected on its power state. *)
Definition GetBackupPowerState (id : string)
  : W → (string * option error) * W :=
  λ w,
  let '((b, err), w1, _) :=
    run remote (GetBackup format_request (VmBackup.withId id)) w in
  match err with
  | Some e => (("", Some e), w1)
  | None => ((from_option VmBackup.PowerState "" b, None), w1)
  end.

(** Modelled from the spec: the address Refresh Source of section
    4.2: one fetch by identity, projected on the address map. *)
Definition GetBackupAddresses (id : string)
  : W → (gmap string string * option error) * W :=
  λ w,
  let '((b, err), w1, _) :=
    run remote (GetBackup format_request (VmBackup.withId id)) w in
  match err with
  | Some e => ((∅, Some e), w1)
  | None => ((from_option Addresses ∅ b, None), w1)
  end.

(** [waitForBackupState] of [backup.go]: the caller's configuration
    with its refresh replaced by the power-state refresh. *)
Definition waitForBackupState (fuel : nat) (id : string)
    (stateConf : StateChangeConf W string) (w : W)
  : option (option error * Z * W) :=
  let stateConf := withRefresh stateConf (GetBackupPowerState id) in
  match WaitForState fuel stateConf w with
  | None => None
  | Some ((_, err), el, w') => Some (err, el, w')
  end.

(** Modelled from the spec: the power-state orchestrator of sections
    4.1 and 4.4, absent from [backup.go]: the target is the desired
    power state and no state is a permanent failure. *)
Definition waitForPowerStateReached (fuel : nat)
    (id desiredPowerState : string) (timeout : Z) (w : W)
  : option (option error * Z * W) :=
  waitForBackupState fuel id
    {| Refresh := GetBackupPowerState id;
       Evaluate := λ v, if String.eqb v desiredPowerState
                        then Target else Pending;
       Describe := λ v, v;
       PollInterval := interval powerPolicy;
       Timeout := timeout;
       RetryBudget := retryBudget powerPolicy |} w.

(** Modelled from the spec: the address predicate of section 4.1:
    every requested slot has a non-empty observed address of the
    family asked for; interfaces that were not requested are
    ignored and missing ones leave the wait pending. *)
Definition assigned (observed : gmap string string)
    (slot family : string) : bool :=
  match observed !! (slot +:+ "/" +:+ family) with
  | Some v => negb (String.eqb v "")
  | None => false
  end.

Definition addressesReady (waitForIps observed : gmap string string)
  : Verdict :=
  if forallb (λ kv, assigned observed kv.1 kv.2) (map_to_list waitForIps)
  then Target else Pending.

(** Modelled from the spec: the address orchestrator of sections
    4.1 and 4.4, absent from [backup.go]. *)
Definition waitForIPAssignment (fuel : nat) (id : string)
    (waitForIps : gmap string string) (timeout : Z) (w : W)
  : option (option error * Z * W) :=
  match WaitForState fuel
          {| Refresh := GetBackupAddresses id;
             Evaluate := addressesReady waitForIps;
             Describe := λ _, "Waiting";
             PollInterval := interval ipPolicy;
             Timeout := timeout;
             RetryBudget := retryBudget ipPolicy |} w with
  | None => None
  | Some ((_, err), el, w') => Some (err, el, w')
  end.

End Orchestrators.

End Waiter.

(** The collaborators of a client with a clock: the two waits are the
    orchestrators above, [time.Sleep] lets its duration pass (none when
    it is not positive) and everything else is answered by [remote] at
    once. *)
Section Timed.
Context {W : Type}.
Variable format_request : VmBackup.t → string.
Variable remote : Handler W.
Variable Addresses : VmBackup.t → gmap string string.
Variables powerPolicy ipPolicy : Waiter.Policy.

Definition timed (fuel : nat) : PHandler (W * Z) :=
  λ o '(w, now),
  match o as o' return option (Resp o' * (W * Z)) with
  | Printf f a =>
    let '(r, w') := remote (Printf f a) w in Some (r, (w', now))
  | Call m p out =>
    let '(r, w') := remote (Call m p out) w in Some (r, (w', now))
  | Sleep d =>
    let '(r, w') := remote (Sleep d) w in Some (r, (w', now + Z.max 0 d)%Z)
  | FindFromGetAllObjects q =>
    let '(r, w') := remote (FindFromGetAllObjects q) w in
    Some (r, (w', now))
  | waitForPowerStateReached id st t =>
    match Waiter.waitForPowerStateReached format_request remote
            powerPolicy fuel id st t w with
    | None => None
    | Some (err, el, w') => Some (err, (w', now + el)%Z)
    end
  | waitForIPAssignment id ips t =>
    match Waiter.waitForIPAssignment format_request remote Addresses
            ipPolicy fuel id ips t w with
    | None => None
    | Some (err, el, w') => Some (err, (w', now + el)%Z)
    end
  end.

End Timed.

(** ** The data source: [backupToMapList]

    [client.Backup] is declared outside the two Go files; the record has
    the fields [backupToMapList] reads, with the types its uses and the
    literals of [FindOrCreateBackupForTests] give them ([CPUs.Number] and
    [Memory.Static] are integers, [Tags] a slice of strings,
    [ResourceSet] a pointer to a [FlatResourceSet]). *)

Module Backup.

Record CPUs := { Number : Z }.
Record MemoryObject := { Static : list Z }.

Record t := {
  Addresses : gmap string string;
  VBDs : list string;
  NameLabel : string;
  Id : string;
  CPUs_ : CPUs;
  CloudConfig : string;
  CloudNetworkConfig : string;
  Tags : list string;
  Memory : MemoryObject;
  AffinityHost : string;
  Template : string;
  HA : string;
  PowerState : string;
  Host : string;
  AutoPoweron : bool;
  NameDescription : string;
  ResourceSet : option FlatResourceSet.t
}.

End Backup.

Module strings.
(** [strings.Contains]: [substr] occurs somewhere in [s]. *)
Fixpoint Contains (s substr : string) : bool :=
  String.prefix substr s
  || match s with
     | EmptyString => false
     | String _ r => Contains r substr
     end.
End strings.

(** A value stored under [interface{}] in a [map[string]interface{}]. *)
Inductive Value :=
| VString (s : string)
| VInt (z : Z)
| VBool (b : bool)
| VStrings (l : list string).

(** A call returns or panics. *)
Inductive Outcome (A : Type) :=
| Returns (a : A)
| Panics (msg : string).
Arguments Returns {A} a.
Arguments Panics {A} msg.

Section Xoa.

(** Go leaves the order of a [range] over a map open: [rangeOrder i m]
    is the order in which the [i]-th [range] of a call visits the
    entries of [m]. *)
Variable rangeOrder : nat → gmap string string → list (string * string).

(** The inner loop: one step per entry of [backup.Addresses]. *)
Definition splitAddress (acc : list string * list string)
    (entry : string * string) : list string * list string :=
  let '(ipv4, ipv6) := acc in
  let '(key, address) := entry in
  if strings.Contains key "ipv4" then (ipv4 ++ [address], ipv6)
  else if strings.Contains key "ipv6" then (ipv4, ipv6 ++ [address])
  else (ipv4, ipv6).

Definition splitAddresses (entries : list (string * string))
  : list string * list string :=
  fold_left splitAddress entries ([], []).

(** The body of the outer loop; [backup.Memory.Static[1]] panics when
    the slice has fewer than two elements. *)
Definition backupToMap (i : nat) (backup : Backup.t)
  : Outcome (gmap string Value) :=
  let '(ipv4, ipv6) :=
    splitAddresses (rangeOrder i (Backup.Addresses backup)) in
  match Backup.Static (Backup.Memory backup) !! 1%nat with
  | None =>
    Panics ("runtime error: index out of range [1] with length "
            +:+ string_of_int
                  (length (Backup.Static (Backup.Memory backup))))
  | Some memory_max =>
    let hostMap : gmap string Value := list_to_map [
      ("id", VString (Backup.Id backup));
      ("name_label", VString (Backup.NameLabel backup));
      ("cpus", VInt (Backup.Number (Backup.CPUs_ backup)));
      ("cloud_config", VString (Backup.CloudConfig backup));
      ("cloud_network_config", VString (Backup.CloudNetworkConfig backup));
      ("tags", VStrings (Backup.Tags backup));
      ("memory_max", VInt memory_max);
      ("affinity_host", VString (Backup.AffinityHost backup));
      ("template", VString (Backup.Template backup));
      ("high_availability", VString (Backup.HA backup));
      ("ipv4_addresses", VStrings ipv4);
      ("ipv6_addresses", VStrings ipv6);
      ("power_state", VString (Backup.PowerState backup));
      ("host", VString (Backup.Host backup));
      ("auto_poweron", VBool (Backup.AutoPoweron backup));
      ("name_description", VString (Backup.NameDescription backup)) ] in
    Returns
      match Backup.ResourceSet backup with
      | Some rs => <["resource_set" := VString (FlatResourceSet.Id rs)]> hostMap
      | None => hostMap
      end
  end.

(** The outer loop, from the [i]-th backup on, appending to [result]. *)
Fixpoint backupToMapList_from (i : nat) (backups : list Backup.t)
    (result : list (gmap string Value))
  : Outcome (list (gmap string Value)) :=
  match backups with
  | [] => Returns result
  | backup :: rest =>
    match backupToMap i backup with
    | Panics msg => Panics msg
    | Returns hostMap => backupToMapList_from (S i) rest (result ++ [hostMap])
    end
  end.

Definition backupToMapList (backups : list Backup.t)
  : Outcome (list (gmap string Value)) :=
  backupToMapList_from 0 backups [].

End Xoa.

(** ** A remote side for concrete runs *)

(** Modelled from the spec: the lookup collaborator
    [FindFromGetAllObjects] of sections 1 and 6, which is not in
    [backup.go]: it filters a snapshot of the remote objects by the
    request's [Compare] and gives the list of matching objects. *)
Definition lookup (snapshot : list VmBackup.t) (obj : VmBackup.t)
  : list VmBackup.t :=
  List.filter (VmBackup.Compare obj) snapshot.

(** A remote side whose answers are fixed in advance: the objects it
    holds and what it replies to the two commands and the two waits. *)
Record Remote := {
  objects : list VmBackup.t;
  createReply : string * option error;
  setReply : bool * option error;
  powerWait : option error;
  ipWait : option error
}.

Definition remote : Handler Remote :=
  λ o w,
  match o as o' return Resp o' * Remote with
  | Printf _ _ => (tt, w)
  | Call _ _ OutString => (createReply w, w)
  | Call _ _ OutBool => (setReply w, w)
  | Sleep _ => (tt, w)
  | FindFromGetAllObjects obj => ((lookup (objects w) obj, None), w)
  | waitForPowerStateReached _ _ _ => (powerWait w, w)
  | waitForIPAssignment _ _ _ => (ipWait w, w)
  end.

Definition nightly (id : string) : VmBackup.t :=
  {| VmBackup.Vms := ∅; VmBackup.Remotes := ∅; VmBackup.Type_ := "VM";
     VmBackup.Id := id; VmBackup.Settings := ∅; VmBackup.Name := "nightly";
     VmBackup.Mode := "full"; VmBackup.PowerState := "Enabled";
     VmBackup.WaitForIps := ∅ |}.

Definition healthy : Remote :=
  {| objects := [nightly "b-1"; nightly "b-2"];
     createReply := ("b-1", None);
     setReply := (true, None);
     powerWait := None;
     ipWait := None |}.

Definition rejected : error :=
  {| dynType := otherError "jsonrpc2.Error"; Error := "invalid parameters" |}.

Definition show (b : VmBackup.t) : string :=
  "{Id:" +:+ VmBackup.Id b +:+ " Name:" +:+ VmBackup.Name b +:+ "}".

(** A remote side holding one backup only. *)
Definition single : Remote :=
  {| objects := [nightly "b-1"];
     createReply := ("b-1", None);
     setReply := (true, None);
     powerWait := None;
     ipWait := None |}.

(** A remote side that rejects [backup.create]. *)
Definition rejecting : Remote :=
  {| objects := [];
     createReply := ("", Some rejected);
     setReply := (true, None);
     powerWait := None;
     ipWait := None |}.

(** The request [VmBackup{Name: name}]. *)
Definition named (name : string) : VmBackup.t :=
  {| VmBackup.Vms := ∅; VmBackup.Remotes := ∅; VmBackup.Type_ := "";
     VmBackup.Id := ""; VmBackup.Settings := ∅; VmBackup.Name := name;
     VmBackup.Mode := ""; VmBackup.PowerState := "";
     VmBackup.WaitForIps := ∅ |}.

(** The answer of the last lookup of a trace. *)
Definition lastFind (tr : list Event)
  : option (list VmBackup.t * option error) :=
  last (omap find_answer tr).

(** A result pair is exclusive: an object that the last lookup gave as
    its only match and a nil error, or no object and an error. *)
Definition exclusive {W}
    (x : (option VmBackup.t * option error) * W * list Event) : Prop :=
  match result x with
  | (Some b, None) => lastFind (trace x) = Some ([b], None)
  | (None, Some _) => True
  | _ => False
  end.

(** The error a wait event came back with. *)
Definition wait_error (ev : Event) : option error :=
  match ev_op ev as o return Resp o → option error with
  | waitForPowerStateReached _ _ _ => λ r, r
  | waitForIPAssignment _ _ _ => λ r, r
  | _ => λ _, None
  end (ev_resp ev).

(** The identity a [backup.create] event left in its out variable. *)
Definition create_answer (ev : Event) : option string :=
  match ev_op ev as o return Resp o → option string with
  | Call method _ out =>
    match out as out' return OutVal out' * option error → option string with
    | OutString => λ r, if String.eqb method "backup.create"
                        then Some r.1 else None
    | OutBool => λ _, None
    end
  | _ => λ _, None
  end (ev_resp ev).

Definition created_id (tr : list Event) : option string :=
  head (omap create_answer tr).

(** The commands of a trace. *)
Definition calls (tr : list Event) : list Op :=
  List.filter is_call (ev_op <$> tr).

(** The lookups of a trace. *)
Definition finds (tr : list Event) : list Op :=
  List.filter is_find (ev_op <$> tr).

(** The waits of a trace. *)
Definition waits (tr : list Event) : list Op :=
  List.filter is_wait (ev_op <$> tr).

(** A request with another desired power state. *)
Definition withPowerState (state : string) (b : VmBackup.t) : VmBackup.t :=
  {| VmBackup.Vms := VmBackup.Vms b; VmBackup.Remotes := VmBackup.Remotes b;
     VmBackup.Type_ := VmBackup.Type_ b; VmBackup.Id := VmBackup.Id b;
     VmBackup.Settings := VmBackup.Settings b;
     VmBackup.Name := VmBackup.Name b; VmBackup.Mode := VmBackup.Mode b;
     VmBackup.PowerState := state;
     VmBackup.WaitForIps := VmBackup.WaitForIps b |}.

(** The lookup gives only objects its request compares equal to. *)
Definition lookup_sound {W} (h : Handler W) : Prop :=
  ∀ (obj : VmBackup.t) (w : W),
    Forall (λ b, VmBackup.Compare obj b = true)
           (h (FindFromGetAllObjects obj) w).1.1.




(** The addresses of the entries whose key contains ["ipv4"], and
    those of the remaining entries whose key contains ["ipv6"]. *)
Definition ipv4_of (entries : list (string * string)) : list string :=
  (filter (λ kv, strings.Contains kv.1 "ipv4" = true) entries).*2.

Definition ipv6_of (entries : list (string * string)) : list string :=
  (filter (λ kv, strings.Contains kv.1 "ipv4" = false
                 ∧ strings.Contains kv.1 "ipv6" = true) entries).*2.


(** A [range] that visits the entries in the order of their keys'
    encoding. *)
Definition inOrder (i : nat) (m : gmap string string)
  : list (string * string) :=
  map_to_list m.

Definition vm (id : string) (static : list Z)
    (addresses : gmap string string) (rs : option FlatResourceSet.t)
  : Backup.t :=
  {| Backup.Addresses := addresses; Backup.VBDs := [];
     Backup.NameLabel := "vm"; Backup.Id := id;
     Backup.CPUs_ := {| Backup.Number := 1 |};
     Backup.CloudConfig := ""; Backup.CloudNetworkConfig := "";
     Backup.Tags := [];
     Backup.Memory := {| Backup.Static := static |};
     Backup.AffinityHost := ""; Backup.Template := "";
     Backup.HA := ""; Backup.PowerState := "Running"; Backup.Host := "";
     Backup.AutoPoweron := false; Backup.NameDescription := "";
     Backup.ResourceSet := rs |}.

Definition someAddresses : gmap string string :=
  list_to_map [("0/ipv4/0", "10.0.0.5"); ("0/ipv6/0", "fe80::1");
               ("0/mac", "aa:bb")].

(** A remote side where no fetch succeeds. *)
Definition unreachable : error :=
  {| dynType := otherError "net.OpError"; Error := "connection refused" |}.

Definition down : Handler unit :=
  λ o w,
  match o as o' return Resp o' * unit with
  | Printf _ _ => (tt, w)
  | Call _ _ OutString => (("", Some unreachable), w)
  | Call _ _ OutBool => ((false, Some unreachable), w)
  | Sleep _ => (tt, w)
  | FindFromGetAllObjects _ => (([], Some unreachable), w)
  | waitForPowerStateReached _ _ _ => (Some unreachable, w)
  | waitForIPAssignment _ _ _ => (Some unreachable, w)
  end.

Definition noAddresses (b : VmBackup.t) : gmap string string := ∅.

(** Polls five seconds apart, three failed refreshes tolerated. *)
Definition everyFive : Waiter.Policy :=
  {| Waiter.interval := 5 * Second; Waiter.retryBudget := 3 |}.


(** How a timed run ended: the type of its error and the clock. *)
Definition ending {W}
    (x : option (option error * (W * Z) * list Event))
  : option (option errorType * Z) :=
  match x with
  | Some (err, (_, now), _) => Some (dynType <$> err, now)
  | None => None
  end.

(** How a poll loop ended: its terminal state, the time it took and
    the number of refreshes. *)
Definition polled {W V}
    (x : option (Waiter.Terminal V * Waiter.PollState V * W))
  : option (Waiter.Terminal V * Z * nat) :=
  match x with
  | Some (t, st, _) => Some (t, Waiter.elapsed st, Waiter.attempts st)
  | None => None
  end.

(** A wait for a state the backup never shows, with a negative timeout. *)
Definition neverReady : Waiter.StateChangeConf Remote string :=
  {| Waiter.Refresh := Waiter.GetBackupPowerState show remote "b-1";
     Waiter.Evaluate := λ _, Waiter.Pending;
     Waiter.Describe := λ v, v;
     Waiter.PollInterval := 5 * Second;
     Waiter.Timeout := -1;
     Waiter.RetryBudget := 3 |}.

(** A remote side that accepts the commands and reports the wait as
    done, but where the created backup is not visible to a lookup. *)
Definition lagging : Remote :=
  {| objects := [];
     createReply := ("b-7", None);
     setReply := (true, None);
     powerWait := None;
     ipWait := None |}.

(** ** Further definitions *)

(** [strings.HasPrefix]. *)
Definition HasPrefix (s prefix : string) : bool := String.prefix prefix s.

Definition newline : string := String (ascii_of_N 10) EmptyString.

Section CloudConfig.

(** [http.DetectContentType], the content sniffing of Go's [net/http]. *)
Variable DetectContentType : string → string.

(** [warnOnInvalidCloudConfig] of [backup.go]: the function returns
    nothing and writes to the log; the model gives the format strings
    of its [log.Printf] calls, in order. *)
Definition warnOnInvalidCloudConfig (cloudConfig : string) : list string :=
  let contentType := DetectContentType cloudConfig in
  if String.eqb contentType "application/x-gzip" then []
  else if HasPrefix cloudConfig "Content-Type" then
    if negb (strings.Contains cloudConfig "multipart/") then
      [ "[WARNING] Detected MIME type that may not be supported by cloudinit";
        "[WARNING] Validate that your configuration is well formed according to the documentation (https://cloudinit.readthedocs.io/en/latest/topics/format.html)."
        +:+ newline ]
    else []
  else if negb (HasPrefix cloudConfig "#cloud-config") then
    [ "[WARNING] cloud config does not start with required text `#cloud-config`.";
      "[WARNING] Validate that your configuration is well formed according to the documentation (https://cloudinit.readthedocs.io/en/latest/topics/format.html)."
      +:+ newline ]
  else [].

End CloudConfig.

(** A request with another [Id]. *)
Definition withRequestId (id : string) (b : VmBackup.t) : VmBackup.t :=
  {| VmBackup.Vms := VmBackup.Vms b; VmBackup.Remotes := VmBackup.Remotes b;
     VmBackup.Type_ := VmBackup.Type_ b; VmBackup.Id := id;
     VmBackup.Settings := VmBackup.Settings b;
     VmBackup.Name := VmBackup.Name b; VmBackup.Mode := VmBackup.Mode b;
     VmBackup.PowerState := VmBackup.PowerState b;
     VmBackup.WaitForIps := VmBackup.WaitForIps b |}.

(** An identifier all of whose bytes the JSON encoder copies as they
    are: printable ASCII without the quote, the backslash and the three
    characters escaped for HTML. *)
Definition plain (s : string) : Prop :=
  Forall (λ b, Json.htmlSafeSet b = true) (Json.codes s).

(** A byte that never occurs in an encoded string: a control
    character, or one of the characters escaped for HTML. *)
Definition unsafeByte (b : N) : bool :=
  ((b <? 0x20) || (b =? 0x26) || (b =? 0x3C) || (b =? 0x3E))%N.

(** The keys of every map of [backupToMapList]. *)
Definition hostKeys : gset string :=
  list_to_set
    ["id"; "name_label"; "cpus"; "cloud_config"; "cloud_network_config";
     "tags"; "memory_max"; "affinity_host"; "template"; "high_availability";
     "ipv4_addresses"; "ipv6_addresses"; "power_state"; "host";
     "auto_poweron"; "name_description"].

(** The backup's [Memory.Static] is too short for [Static[1]]. *)
Definition short (b : Backup.t) : Prop :=
  length (Backup.Static (Backup.Memory b)) < 2.

(** Go's [s1 + s2 + s3] on strings, for stating what [strings.Contains]
    decides. *)
Definition occursIn (substr s : string) : Prop :=
  ∃ before after : string, s = before +:+ substr +:+ after.


(** The sniffing that finds nothing but plain text. *)
Definition sniffText (data : string) : string := "text/plain; charset=utf-8".

(** Two backups for concrete calls: the first has addresses and a
    resource set. *)
Definition twoBackups : list Backup.t :=
  [vm "vm-1" [0; 2048]%Z someAddresses
      (Some {| FlatResourceSet.Id := "rs-1" |});
   vm "vm-2" [0; 1024]%Z ∅ None].

(** A byte of an encoded string: it fits in eight bits and is not one
    of the unsafe ones. *)
Definition fine (b : N) : Prop := (b < 256)%N ∧ unsafeByte b = false.

(** A remote side that accepts the commands but reports the wait as
    timed out. *)
Definition tooSlow : error :=
  {| dynType := otherError "TimeoutError"; Error := "timeout" |}.

Definition stuck : Remote :=
  {| objects := [nightly "b-1"];
     createReply := ("b-1", None);
     setReply := (true, None);
     powerWait := Some tooSlow;
     ipWait := Some tooSlow |}.

(** A remote side whose [backup.create] leaves an empty identity. *)
Definition nameless : Remote :=
  {| objects := [nightly "b-1"];
     createReply := ("", None);
     setReply := (true, None);
     powerWait := None;
     ipWait := None |}.

(** ** Reading a JSON string back

    What a JSON text means is fixed by RFC 8259, not by the encoder:
    [JsonText.unquote] reads one string literal, the whole text, and
    gives the bytes of the string it denotes, in UTF-8. *)

Module JsonText.

(** The value of a hexadecimal digit. *)

Definition unhex (d : N) : option N :=
  if ((0x30 <=? d) && (d <=? 0x39))%N then Some (d - 0x30)%N
  else if ((0x61 <=? d) && (d <=? 0x66))%N then Some (d - 0x61 + 10)%N
  else if ((0x41 <=? d) && (d <=? 0x46))%N then Some (d - 0x41 + 10)%N
  else None.

(** The UTF-8 bytes of a code point (RFC 3629). *)
Definition utf8 (c : N) : list N :=
  if (c <? 0x80)%N then [c]
  else if (c <? 0x800)%N then [0xC0 + c / 64; 0x80 + c mod 64]%N
  else if (c <? 0x10000)%N then
    [0xE0 + c / 4096; 0x80 + (c / 64) mod 64; 0x80 + c mod 64]%N
  else
    [0xF0 + c / 262144; 0x80 + (c / 4096) mod 64; 0x80 + (c / 64) mod 64;
     0x80 + c mod 64]%N.

(** The byte a two-character escape stands for. *)
Definition escaped (e : N) : option N :=
  if (e =? 0x22)%N then Some 0x22%N
  else if (e =? 0x5C)%N then Some 0x5C%N
  else if (e =? 0x2F)%N then Some 0x2F%N
  else if (e =? 0x62)%N then Some 0x08%N
  else if (e =? 0x66)%N then Some 0x0C%N
  else if (e =? 0x6E)%N then Some 0x0A%N
  else if (e =? 0x72)%N then Some 0x0D%N
  else if (e =? 0x74)%N then Some 0x09%N
  else None.

(** The code point of [\uXXXX]; the halves of a surrogate pair, which
    the encoder never writes, are not read. *)
Definition codeUnit (h1 h2 h3 h4 : N) : option N :=
  match unhex h1, unhex h2, unhex h3, unhex h4 with
  | Some a, Some b, Some c, Some d =>
    let u := (((a * 16 + b) * 16 + c) * 16 + d)%N in
    if ((0xD800 <=? u) && (u <=? 0xDFFF))%N then None else Some u
  | _, _, _, _ => None
  end.

(** The characters of a literal after its opening quote: an unescaped
    byte stands for itself (a control character may not appear), an
    escape for its byte or for the UTF-8 bytes of its code point; the
    closing quote must end the text. *)
Fixpoint unquoteBody (text : list N) : option (list N) :=
  match text with
  | [] => None
  | b :: rest =>
    if (b =? 0x22)%N then
      match rest with
      | [] => Some []
      | _ :: _ => None
      end
    else if (b =? 0x5C)%N then
      match rest with
      | [] => None
      | e :: rest1 =>
        if (e =? 0x75)%N then
          match rest1 with
          | h1 :: h2 :: h3 :: h4 :: rest2 =>
            match codeUnit h1 h2 h3 h4 with
            | Some u => (λ s, utf8 u ++ s) <$> unquoteBody rest2
            | None => None
            end
          | _ => None
          end
        else
          match escaped e with
          | Some v => (λ s, v :: s) <$> unquoteBody rest1
          | None => None
          end
      end
    else if (b <? 0x20)%N then None
    else (λ s, b :: s) <$> unquoteBody rest
  end.

Definition unquote (text : list N) : option (list N) :=
  match text with
  | [] => None
  | b :: body => if (b =? 0x22)%N then unquoteBody body else None
  end.

End JsonText.


(** The string is well-formed UTF-8: [utf8.ValidString]. *)
Fixpoint validUTF8 (skip : nat) (src : list N) : bool :=
  match src with
  | [] => true
  | b :: rest =>
    match skip with
    | S k => validUTF8 k rest
    | O =>
      if (b <? Json.RuneSelf)%N then validUTF8 0 rest
      else
        let '(c, size) := Json.DecodeRuneInString (take 4 src) in
        if ((c =? Json.RuneError)%N && (size =? 1)%nat) then false
        else validUTF8 (size - 1) rest
    end
  end.

(** The lookup reports that nothing matches by an error of type
    [NotFound].  [backup.go] relies on it: [FindOrCreateBackupForTests]
    tests the error of [GetBackup] with [err.(NotFound)], and [GetBackup]
    itself builds no error of that type, so the error can only be the
    one [FindFromGetAllObjects] returned. *)
Definition reports_missing {W} (h : Handler W) : Prop :=
  ∀ (obj : VmBackup.t) (w : W),
    (h (FindFromGetAllObjects obj) w).1.1 = [] →
    isNotFound (h (FindFromGetAllObjects obj) w).1.2 = true.

Definition notFound : error :=
  {| dynType := NotFound; Error := "Could not find client.VmBackup" |}.

(** The remote side of [remote], with a lookup that reports no match
    by a [NotFound] error. *)
Definition finder : Handler Remote :=
  λ o w,
  match o as o' return Resp o' * Remote with
  | Printf _ _ => (tt, w)
  | Call _ _ OutString => (createReply w, w)
  | Call _ _ OutBool => (setReply w, w)
  | Sleep _ => (tt, w)
  | FindFromGetAllObjects obj =>
    match lookup (objects w) obj with
    | [] => (([], Some notFound), w)
    | found => ((found, None), w)
    end
  | waitForPowerStateReached _ _ _ => (powerWait w, w)
  | waitForIPAssignment _ _ _ => (ipWait w, w)
  end.




(** An update that names another identity than the backup has. *)
Definition renamed : VmBackup.t := withRequestId "b-9" (named "nightly").

(** * Properties *)

(** ** The JSON form of a resource set *)




Lemma codes_nonempty (a : ascii) (r : string) :
  Json.codes (String a r) = Json.code a :: Json.codes r.
Proof. reflexivity. Qed.

(** ** Running the client functions *)

Lemma run_bind {W A B} (h : Handler W) (p : Prog A) (f : A → Prog B) (w : W) :
  run h (p ≫= f) w =
  let '(a, w1, tr1) := run h p w in
  let '(b, w2, tr2) := run h (f a) w1 in
  (b, w2, tr1 ++ tr2).
Proof.
  revert w. induction p as [a | o k IH]; intros w.
  - cbn. destruct (run h (f a) w) as [[b w2] tr2]. reflexivity.
  - change (Vis o k ≫= f) with (Vis o (λ r, k r ≫= f)).
    cbn [run]. destruct (h o w) as [r w1].
    rewrite IH.
    destruct (run h (k r) w1) as [[a w2] tr1].
    destruct (run h (f a) w2) as [[b w3] tr2]. reflexivity.
Qed.

Section ClientFacts.
Context {W : Type}.
Variable format_request : VmBackup.t → string.
Variable h : Handler W.

(** What a run of [GetBackup] is, by the answer of the lookup. *)
Lemma run_GetBackup (req : VmBackup.t) (w : W) :
  run h (GetBackup format_request req) w =
  let '(r, w1) := h (FindFromGetAllObjects req) w in
  let find := {| ev_op := FindFromGetAllObjects req; ev_resp := r |} in
  match r.2 with
  | Some e => ((None, Some e), w1, [find])
  | None =>
    match r.1 with
    | [b0] =>
      let o := Printf "[DEBUG] Found backup: %+v" (LBackup b0) in
      let '(u, w2) := h o w1 in
      ((Some b0, None), w2, [find; {| ev_op := o; ev_resp := u |}])
    | objs => ((None, Some (singleExpected format_request req (length objs))),
               w1, [find])
    end
  end.
Proof.
  unfold GetBackup. cbn [mbind Prog_mbind Prog_bind trigger run].
  destruct (h (FindFromGetAllObjects req) w) as [[objs err] w1].
  cbn [fst snd]. destruct err as [e|]; [reflexivity|].
  destruct objs as [|b0 [|b1 objs]]; try reflexivity.
  cbn. destruct (h _ w1) as [u w2]. reflexivity.
Qed.

Lemma GetBackup_exclusive (req : VmBackup.t) (w : W) :
  exclusive (run h (GetBackup format_request req) w).
Proof.
  rewrite run_GetBackup.
  destruct (h (FindFromGetAllObjects req) w) as [[objs err] w1].
  cbn [fst snd]. destruct err as [e|]; [exact I|].
  destruct objs as [|b0 [|b1 objs]]; try exact I.
  destruct (h _ w1) as [u w2]. reflexivity.
Qed.

End ClientFacts.

Ltac unfold_prog :=
  cbn [run mbind Prog_mbind Prog_bind trigger mret Prog_mret].

(** Case analysis on the membership of an event in an explicit trace. *)
Ltac inv_mem H :=
  repeat (apply elem_of_cons in H as [H | H]; [subst | ]);
  try (apply elem_of_nil in H; destruct H).

Section Orchestration.
Context {W : Type}.
Variable format_request : VmBackup.t → string.
Variable h : Handler W.

(** C4: [waitForModifyBackup] performs one wait and nothing else: the
    power-state wait when the desired address set is empty, the
    address-assignment wait, with that set, when it is not. *)
Theorem waitForModifyBackup_selects (id desiredPowerState : string)
    (waitForIps : gmap string string) (timeout : Z) (w : W) :
  ev_op <$> trace (run h (waitForModifyBackup id desiredPowerState
                            waitForIps timeout) w)
  = if decide (waitForIps = ∅)
    then [waitForPowerStateReached id desiredPowerState timeout]
    else [waitForIPAssignment id waitForIps timeout].
Proof.
  unfold waitForModifyBackup.
  destruct (decide (waitForIps = ∅)) as [-> | Hne].
  - rewrite map_size_empty. cbn. destruct (h _ w). reflexivity.
  - destruct (size waitForIps =? 0) eqn:E.
    + apply Nat.eqb_eq in E. apply map_size_empty_iff in E. contradiction.
    + cbn. destruct (h _ w). reflexivity.
Qed.

(** C5: when a command of [CreateBackup] comes back with an error, that
    error is the result, the failed command is the last operation of
    the run, and the run has neither a wait nor a lookup. *)
Theorem CreateBackup_command_error (backupReq : VmBackup.t) (createTime : Z)
    (w : W) (ev : Event) (e : error) :
  ev ∈ trace (run h (CreateBackup format_request backupReq createTime) w) →
  call_error ev = Some e →
  result (run h (CreateBackup format_request backupReq createTime) w)
    = (None, Some e)
  ∧ last (trace (run h (CreateBackup format_request backupReq createTime) w))
    = Some ev
  ∧ Forall (λ o, is_wait o = false ∧ is_find o = false)
      (ev_op <$> trace (run h (CreateBackup format_request backupReq
                                 createTime) w)).
Proof.
  unfold CreateBackup. unfold_prog.
  destruct (h (Printf _ _) w) as [u w0].
  destruct (h (Call "backup.create" _ _) w0) as [[backupId err1] w1].
  destruct err1 as [e1|].
  { cbn. intros Hin Hce. inv_mem Hin; cbn in Hce; [discriminate|].
    injection Hce as ->. repeat split. repeat constructor. }
  unfold_prog.
  destruct (h (Call "backup.set" _ _) w1) as [[success err2] w2].
  destruct err2 as [e2|].
  { cbn. intros Hin Hce. inv_mem Hin; cbn in Hce; try discriminate.
    injection Hce as ->. repeat split. repeat constructor. }
  intros Hin Hce. exfalso. revert Hin Hce.
  rewrite run_bind.
  unfold waitForModifyBackup.
  destruct (size (VmBackup.WaitForIps backupReq) =? 0); unfold_prog;
    destruct (h _ w2) as [errw w3];
    (destruct errw as [ew|];
     [ cbn; intros Hin Hce; inv_mem Hin; cbn in Hce; discriminate
     | rewrite run_GetBackup;
       destruct (h (FindFromGetAllObjects _) w3) as [[objs errf] w4];
       cbn [fst snd];
       destruct errf as [ef|];
       [ cbn; intros Hin Hce; inv_mem Hin; cbn in Hce; discriminate
       | destruct objs as [|b0 [|b1 objs]];
         try (cbn; intros Hin Hce; inv_mem Hin; cbn in Hce; discriminate);
         destruct (h (Printf _ _) w4) as [u' w5];
         cbn; intros Hin Hce; inv_mem Hin; cbn in Hce; discriminate ] ]).
Qed.

(** Every case of a run: the answers of the collaborators one by one. *)
Ltac crush_run :=
  repeat (unfold_prog;
          match goal with
          | |- context [h ?o ?w] =>
            let r := fresh "r" in
            destruct (h o w) as [r ?]; cbn [Resp OutVal] in r;
            lazymatch type of r with
            | (_ * _)%type => destruct r as [? ?]
            | _ => idtac
            end
          | |- context [match ?e with Some _ => _ | None => _ end] =>
            is_var e; destruct e
          | |- context [if ?b then _ else _] => destruct b
          | |- context [match ?l with [] => _ | _ :: _ => _ end] =>
            is_var l; destruct l
          end).

(** C7: [CreateBackup], [UpdateBackup] and [GetBackup] return either an
    object with a nil error or no object with an error, never both and
    never neither; the object is the whole object that the last lookup
    of the run gave as its only match. *)
Theorem results_exclusive (backupReq : VmBackup.t) (createTime : Z) (w : W) :
  exclusive (run h (CreateBackup format_request backupReq createTime) w)
  ∧ exclusive (run h (UpdateBackup format_request backupReq) w)
  ∧ exclusive (run h (GetBackup format_request backupReq) w).
Proof.
  split; [|split].
  - unfold CreateBackup, waitForModifyBackup, GetBackup.
    crush_run; cbn; try exact I; reflexivity.
  - unfold UpdateBackup, GetBackup.
    crush_run; cbn; try exact I; reflexivity.
  - apply GetBackup_exclusive.
Qed.
(** C2, as the code has it: [UpdateBackup] issues [backup.set]; when
    the command fails the run ends there with its error; when it
    succeeds the run sleeps twenty-five seconds and then performs the
    final fetch with the request.  No waiter is invoked on either path. *)
Theorem UpdateBackup_sleeps_then_fetches (backupReq : VmBackup.t) (w : W) :
  let x := run h (UpdateBackup format_request backupReq) w in
  let set := Call "backup.set" (updateParams backupReq) OutBool in
  match (h set w).1.2 with
  | Some e => ops (trace x) = [set] ∧ result x = (None, Some e)
  | None =>
    ops (trace x)
    = [set; Sleep (25 * Second); FindFromGetAllObjects backupReq]
  end
  ∧ waits (trace x) = [].
Proof.
  unfold UpdateBackup, GetBackup.
  crush_run; cbn; repeat split; reflexivity.
Qed.

(** What [GetBackup] returns, by the answer of the lookup, whatever the
    lookup is. *)
Lemma GetBackup_classification (backupReq : VmBackup.t) (w : W) :
  let answer := (h (FindFromGetAllObjects backupReq) w).1 in
  let r := result (run h (GetBackup format_request backupReq) w) in
  match answer.2, answer.1 with
  | Some e, _ => r = (None, Some e)
  | None, [b] => r = (Some b, None)
  | None, objs =>
    r = (None, Some (singleExpected format_request backupReq (length objs)))
    ∧ dynType <$> r.2 = Some errorString
    ∧ isNotFound r.2 = false
  end.
Proof.
  rewrite run_GetBackup.
  destruct (h (FindFromGetAllObjects backupReq) w) as [[objs err] w1].
  cbn [fst snd]. destruct err as [e|]; [reflexivity|].
  destruct objs as [|b0 [|b1 objs]]; try (repeat split; reflexivity).
  destruct (h _ w1). reflexivity.
Qed.

Lemma Compare_withId (id : string) (b : VmBackup.t) :
  VmBackup.Compare (VmBackup.withId id) b = true → VmBackup.Id b = id.
Proof.
  unfold VmBackup.Compare. cbn.
  destruct (String.eqb id "") eqn:E0; cbn; [discriminate|].
  destruct (String.eqb id (VmBackup.Id b)) eqn:E; [|discriminate].
  intros _. apply String.eqb_eq in E. congruence.
Qed.

(** C6, as the code has it: when the commands and the wait of
    [CreateBackup] succeed, the run has exactly one lookup, for
    [VmBackup{Id: id}] with the [id] that [backup.create] returned; when
    that lookup gives exactly one object the object is returned, and its
    identity is [id], the lookup giving only objects that compare equal
    to its request; otherwise no object is returned but an error. *)
Theorem CreateBackup_final_fetch (backupReq : VmBackup.t) (createTime : Z)
    (w : W) :
  lookup_sound h →
  Forall (λ ev, call_error ev = None ∧ wait_error ev = None)
    (trace (run h (CreateBackup format_request backupReq createTime) w)) →
  ∃ id : string,
    created_id (trace (run h (CreateBackup format_request backupReq
                                createTime) w)) = Some id
    ∧ finds (trace (run h (CreateBackup format_request backupReq
                             createTime) w))
      = [FindFromGetAllObjects (VmBackup.withId id)]
    ∧ match lastFind (trace (run h (CreateBackup format_request backupReq
                                      createTime) w)) with
      | Some ([b], None) =>
        result (run h (CreateBackup format_request backupReq createTime) w)
        = (Some b, None)
        ∧ VmBackup.Id b = id
      | _ =>
        (result (run h (CreateBackup format_request backupReq
                          createTime) w)).1 = None
        ∧ (result (run h (CreateBackup format_request backupReq
                            createTime) w)).2 ≠ None
      end.
Proof.
  intros Hsound. rewrite Forall_forall.
  unfold CreateBackup. unfold_prog.
  destruct (h (Printf _ _) w) as [u w0].
  destruct (h (Call "backup.create" _ _) w0) as [[backupId err1] w1].
  destruct err1 as [e1|].
  { intros Hok. exfalso.
    assert (call_error
              {| ev_op := Call "backup.create" (createParams backupReq)
                               OutString;
                 ev_resp := (backupId, Some e1) |} = None) as Hc
      by (apply Hok; cbn; repeat constructor).
    discriminate Hc. }
  unfold_prog.
  destruct (h (Call "backup.set" _ _) w1) as [[success err2] w2].
  destruct err2 as [e2|].
  { intros Hok. exfalso.
    assert (call_error
              {| ev_op := Call "backup.set"
                               (list_to_map [("id", PString backupId)])
                               OutBool;
                 ev_resp := (success, Some e2) |} = None) as Hc
      by (apply Hok; cbn; repeat constructor).
    discriminate Hc. }
  rewrite run_bind. unfold waitForModifyBackup.
  pose proof (Hsound (VmBackup.withId backupId)) as Hs.
  destruct (size (VmBackup.WaitForIps backupReq) =? 0); unfold_prog;
    destruct (h _ w2) as [errw w3];
    (destruct errw as [ew|];
     [ intros Hok; exfalso; cbn in Hok;
       match type of Hok with
       | ∀ ev, ev ∈ _ :: _ :: _ :: ?e :: _ → _ =>
         assert (wait_error e = None) as Hw
           by (apply Hok; repeat constructor);
         discriminate Hw
       end
     | intros _; exists backupId;
       rewrite run_GetBackup;
       specialize (Hs w3);
       destruct (h (FindFromGetAllObjects _) w3) as [[objs errf] w4];
       cbn [fst snd] in *;
       destruct errf as [ef|];
       [ cbn; destruct objs as [|b0 [|b1 objs]]; repeat split; discriminate
       | destruct objs as [|b0 [|b1 objs]];
         [ cbn; repeat split; discriminate
         | destruct (h (Printf _ _) w4) as [u' w5]; cbn;
           split; [reflexivity|]; split; [reflexivity|];
           split; [reflexivity|];
           apply Compare_withId;
           apply Forall_cons in Hs as [Hs _]; exact Hs
         | cbn; repeat split; discriminate ] ] ]).
Qed.

Lemma createParams_enabled (backupReq : VmBackup.t) :
  createParams backupReq !! "enabled" = Some (PBool false).
Proof. unfold createParams. cbn [list_to_map foldr fst snd]. apply lookup_insert_eq. Qed.

Lemma updateParams_enabled (backupReq : VmBackup.t) :
  updateParams backupReq !! "enabled" = Some (PBool false).
Proof.
  unfold updateParams. cbn [list_to_map foldr fst snd].
  rewrite lookup_insert_ne by discriminate. apply lookup_insert_eq.
Qed.

Lemma idParams_enabled (id : string) :
  (list_to_map [("id", PString id)] : gmap string PValue) !! "enabled" = None.
Proof.
  cbn [list_to_map foldr fst snd].
  rewrite lookup_insert_ne by discriminate. apply lookup_empty.
Qed.

(** C9: the parameter maps of [backup.create] and of [UpdateBackup]'s
    [backup.set] carry ["enabled"] with the value [false]; they are the
    first command of their runs; no command of either run carries
    ["enabled"] with [true]; and a request with another desired power
    state gives the same parameter maps and the same commands. *)
Theorem enabled_is_always_false (backupReq : VmBackup.t) (state : string)
    (createTime : Z) (w : W) :
  createParams backupReq !! "enabled" = Some (PBool false)
  ∧ updateParams backupReq !! "enabled" = Some (PBool false)
  ∧ head (calls (trace (run h (CreateBackup format_request backupReq
                                 createTime) w)))
    = Some (Call "backup.create" (createParams backupReq) OutString)
  ∧ head (calls (trace (run h (UpdateBackup format_request backupReq) w)))
    = Some (Call "backup.set" (updateParams backupReq) OutBool)
  ∧ Forall (λ o, ∀ p, call_params o = Some p →
                      p !! "enabled" ≠ Some (PBool true))
      (calls (trace (run h (CreateBackup format_request backupReq
                              createTime) w))
       ++ calls (trace (run h (UpdateBackup format_request backupReq) w)))
  ∧ createParams (withPowerState state backupReq) = createParams backupReq
  ∧ updateParams (withPowerState state backupReq) = updateParams backupReq
  ∧ calls (trace (run h (CreateBackup format_request
                           (withPowerState state backupReq) createTime) w))
    = calls (trace (run h (CreateBackup format_request backupReq
                             createTime) w))
  ∧ calls (trace (run h (UpdateBackup format_request
                           (withPowerState state backupReq)) w))
    = calls (trace (run h (UpdateBackup format_request backupReq) w)).
Proof.
  pose proof (createParams_enabled backupReq) as Hcr.
  pose proof (updateParams_enabled backupReq) as Hup.
  split; [exact Hcr|]. split; [exact Hup|].
  split; [|split; [|split; [|split; [reflexivity|split; [reflexivity|split]]]]].
  - unfold CreateBackup, waitForModifyBackup, GetBackup.
    crush_run; reflexivity.
  - unfold UpdateBackup, GetBackup. crush_run; reflexivity.
  - unfold CreateBackup, UpdateBackup, waitForModifyBackup, GetBackup.
    crush_run; cbn; repeat constructor; intros p [= <-];
      rewrite ?Hcr, ?Hup, ?idParams_enabled; discriminate.
  - unfold CreateBackup, waitForModifyBackup, GetBackup.
    change (createParams (withPowerState state backupReq))
      with (createParams backupReq).
    cbn [withPowerState VmBackup.WaitForIps VmBackup.PowerState].
    crush_run; reflexivity.
  - unfold UpdateBackup, GetBackup.
    change (updateParams (withPowerState state backupReq))
      with (updateParams backupReq).
    crush_run; reflexivity.
Qed.

End Orchestration.

(** ** The waits return in time *)

Section PollFacts.
Context {W V : Type}.
Variable conf : Waiter.StateChangeConf W V.
Hypothesis interval_pos : (0 < Waiter.PollInterval conf)%Z.






End PollFacts.

Section WaitFacts.
Context {W : Type}.
Variable format_request : VmBackup.t → string.
Variable remote : Handler W.
Variable Addresses : VmBackup.t → gmap string string.
Variables powerPolicy ipPolicy : Waiter.Policy.






End WaitFacts.

(** ** The data source *)

Section XoaFacts.
Variable rangeOrder : nat → gmap string string → list (string * string).
Hypothesis rangeOrder_perm : ∀ i m, rangeOrder i m ≡ₚ map_to_list m.

Lemma fold_splitAddress (entries : list (string * string))
    (ipv4 ipv6 : list string) :
  fold_left splitAddress entries (ipv4, ipv6)
  = (ipv4 ++ ipv4_of entries, ipv6 ++ ipv6_of entries).
Proof.
  revert ipv4 ipv6. induction entries as [|[key address] entries IH];
    intros ipv4 ipv6.
  - cbn. by rewrite !app_nil_r.
  - cbn [fold_left splitAddress]. unfold ipv4_of, ipv6_of.
    rewrite !filter_cons. cbn [fst].
    destruct (strings.Contains key "ipv4") eqn:E4.
    + rewrite IH. rewrite decide_True by done.
      rewrite decide_False by (intros [? _]; done).
      cbn. by rewrite <- app_assoc.
    + rewrite decide_False by done.
      destruct (strings.Contains key "ipv6") eqn:E6.
      * rewrite IH. rewrite decide_True by done.
        cbn. by rewrite <- app_assoc.
      * rewrite IH. rewrite decide_False by (intros [_ ?]; done).
        reflexivity.
Qed.

Lemma splitAddresses_exact (entries : list (string * string)) :
  splitAddresses entries = (ipv4_of entries, ipv6_of entries).
Proof. unfold splitAddresses. by rewrite fold_splitAddress. Qed.




End XoaFacts.

(** ** Concrete runs *)

Example marshal_rs1 :
  Json.codes (FlatResourceSet.MarshalJSON {| FlatResourceSet.Id := "rs-1" |}).1
  = [34; 114; 115; 45; 49; 34]%N.
Proof. reflexivity. Qed.

Example marshal_escapes :
  Json.codes (FlatResourceSet.MarshalJSON {| FlatResourceSet.Id := "a<b" |}).1
  = [34; 97; 92; 117; 48; 48; 51; 99; 98; 34]%N.
Proof. reflexivity. Qed.

Example marshal_empty :
  FlatResourceSet.MarshalJSON {| FlatResourceSet.Id := "" |} = ("null", None).
Proof. reflexivity. Qed.

(** C2, counterexample: on a remote side that accepts [backup.set], the
    run of [UpdateBackup] is the command, a sleep of twenty-five seconds
    and the lookup, and the backup is returned: no waiter is invoked
    between the command and the final fetch. *)
Lemma UpdateBackup_invokes_no_waiter :
  let x := run remote (UpdateBackup show (nightly "b-1")) single in
  (remote (Call "backup.set" (updateParams (nightly "b-1")) OutBool)
          single).1 = (true, None)
  ∧ result x = (Some (nightly "b-1"), None)
  ∧ ops (trace x)
    = [Call "backup.set" (updateParams (nightly "b-1")) OutBool;
       Sleep 25000000000;
       FindFromGetAllObjects (nightly "b-1")]
  ∧ waits (trace x) = [].
Proof. vm_compute. repeat split; reflexivity. Qed.

(** With a lookup that answers no match by an empty list and a nil
    error, [GetBackup] builds its own error, for no object as for two. *)
Example GetBackup_error_texts :
  let none := run remote (GetBackup show (VmBackup.withId "b-9")) healthy in
  let many := run remote (GetBackup show (named "nightly")) healthy in
  lookup (objects healthy) (VmBackup.withId "b-9") = []
  ∧ length (lookup (objects healthy) (named "nightly")) = 2
  ∧ isNotFound (result none).2 = false
  ∧ dynType <$> (result none).2 = Some errorString
  ∧ dynType <$> (result many).2 = Some errorString
  ∧ Error <$> (result none).2
    = Some "expected to find a single VmBackup from request {Id:b-9 Name:}, instead found 0"
  ∧ Error <$> (result many).2
    = Some "expected to find a single VmBackup from request {Id: Name:nightly}, instead found 2".
Proof. vm_compute. repeat split; reflexivity. Qed.

(** C5, witness: a remote side that rejects [backup.create]. *)
Lemma CreateBackup_command_error_witness :
  result (run remote (CreateBackup show (nightly "") (300 * Second)) rejecting)
    = (None, Some rejected)
  ∧ last (trace (run remote (CreateBackup show (nightly "") (300 * Second))
                     rejecting))
    = Some {| ev_op := Call "backup.create" (createParams (nightly ""))
                            OutString;
              ev_resp := ("", Some rejected) |}
  ∧ Forall (λ o, is_wait o = false ∧ is_find o = false)
      (ev_op <$> trace (run remote (CreateBackup show (nightly "")
                                      (300 * Second)) rejecting)).
Proof.
  apply (CreateBackup_command_error show remote (nightly "") (300 * Second)
           rejecting).
  - vm_compute. right. left.
  - reflexivity.
Defined.

Lemma remote_lookup_sound : lookup_sound remote.
Proof.
  intros obj w. cbn. unfold lookup. apply Forall_forall.
  intros b Hb. apply list_elem_of_In, filter_In in Hb. apply Hb.
Qed.

(** C6, witness: a remote side that accepts the commands and holds the
    created backup. *)
Lemma CreateBackup_final_fetch_witness :
  ∃ id : string,
    created_id (trace (run remote (CreateBackup show (nightly "")
                                     (300 * Second)) single)) = Some id
    ∧ finds (trace (run remote (CreateBackup show (nightly "")
                                  (300 * Second)) single))
      = [FindFromGetAllObjects (VmBackup.withId id)]
    ∧ match lastFind (trace (run remote (CreateBackup show (nightly "")
                                           (300 * Second)) single)) with
      | Some ([b], None) =>
        result (run remote (CreateBackup show (nightly "") (300 * Second))
                    single)
        = (Some b, None)
        ∧ VmBackup.Id b = id
      | _ =>
        (result (run remote (CreateBackup show (nightly "") (300 * Second))
                     single)).1 = None
        ∧ (result (run remote (CreateBackup show (nightly "") (300 * Second))
                       single)).2 ≠ None
      end.
Proof.
  apply (CreateBackup_final_fetch show remote (nightly "") (300 * Second)
           single).
  - exact remote_lookup_sound.
  - vm_compute. repeat constructor.
Defined.

(** C6, counterexample: the commands and the wait succeed, the one
    lookup for the created identity finds nothing, and [CreateBackup]
    returns no object but the error of [GetBackup]. *)
Lemma CreateBackup_fetch_may_fail :
  let x := run remote (CreateBackup show (nightly "") (300 * Second))
               lagging in
  Forall (λ ev, call_error ev = None ∧ wait_error ev = None) (trace x)
  ∧ created_id (trace x) = Some "b-7"
  ∧ finds (trace x) = [FindFromGetAllObjects (VmBackup.withId "b-7")]
  ∧ lastFind (trace x) = Some ([], None)
  ∧ (result x).1 = None
  ∧ Error <$> (result x).2
    = Some "expected to find a single VmBackup from request {Id:b-7 Name:}, instead found 0".
Proof. vm_compute. repeat split; repeat constructor. Qed.

Example CreateBackup_on_single :
  (result (run remote (CreateBackup show (nightly "") (300 * Second)) single))
  = (Some (nightly "b-1"), None)
  ∧ ops (trace (run remote (CreateBackup show (nightly "") (300 * Second))
                    single))
    = [Call "backup.create" (createParams (nightly "")) OutString;
       Call "backup.set" (list_to_map [("id", PString "b-1")]) OutBool;
       waitForPowerStateReached "b-1" "Enabled" 300000000000;
       FindFromGetAllObjects (VmBackup.withId "b-1")].
Proof. vm_compute. split; reflexivity. Qed.



(** The backup is enabled already: the first poll succeeds at once. *)
Example wait_succeeds_at_once :
  prun (timed show remote noAddresses everyFive everyFive 20)
       (waitForModifyBackup "b-1" EnabledState ∅ (60 * Second)) (single, 0%Z)
  = Some (None, (single, 0%Z),
          [{| ev_op := waitForPowerStateReached "b-1" EnabledState
                         (60 * Second);
              ev_resp := None |}]).
Proof. vm_compute. reflexivity. Qed.

(** The backup never reaches the desired state: the wait times out at
    the first poll that is not before the timeout. *)
Example wait_times_out :
  ending (prun (timed show remote noAddresses everyFive everyFive 20)
               (waitForModifyBackup "b-1" DisabledState ∅ (12 * Second))
               (single, 0%Z))
  = Some (Some (otherError "TimeoutError"), (15 * Second)%Z).
Proof. vm_compute. reflexivity. Qed.

(** Every refresh fails: the fourth failure exceeds the budget of three
    and ends the wait, fifteen seconds in. *)
Example wait_gives_up :
  ending (prun (timed show down noAddresses everyFive everyFive 20)
               (waitForModifyBackup "b-1" EnabledState ∅ (60 * Second))
               (tt, 0%Z))
  = Some (Some (otherError "net.OpError"), (15 * Second)%Z).
Proof. vm_compute. reflexivity. Qed.

(** A negative timeout gives exactly one refresh. *)
Example wait_negative_timeout :
  polled (Waiter.poll 20 neverReady Waiter.start single)
  = Some (Waiter.TimedOut, 0%Z, 1).
Proof. vm_compute. reflexivity. Qed.



Example backupToMapList_addresses :
  match backupToMapList inOrder
          [vm "vm-1" [0; 2048]%Z someAddresses
              (Some {| FlatResourceSet.Id := "rs-1" |});
           vm "vm-2" [0; 1024]%Z ∅ None] with
  | Returns [m1; m2] =>
    m1 !! "id" = Some (VString "vm-1")
    ∧ m1 !! "ipv4_addresses" = Some (VStrings ["10.0.0.5"])
    ∧ m1 !! "ipv6_addresses" = Some (VStrings ["fe80::1"])
    ∧ m1 !! "resource_set" = Some (VString "rs-1")
    ∧ m1 !! "memory_max" = Some (VInt 2048)
    ∧ m2 !! "id" = Some (VString "vm-2")
    ∧ m2 !! "ipv4_addresses" = Some (VStrings [])
    ∧ m2 !! "resource_set" = None
  | _ => False
  end.
Proof. vm_compute. repeat split; reflexivity. Qed.

(** * Further properties *)

(** ** Matching a request *)

Lemma Compare_true_iff (v other : VmBackup.t) :
  VmBackup.Compare v other = true
  ↔ (VmBackup.Id v ≠ "" ∧ VmBackup.Id v = VmBackup.Id other)
    ∨ (VmBackup.Name v ≠ "" ∧ VmBackup.Name v = VmBackup.Name other).
Proof.
  unfold VmBackup.Compare.
  destruct (String.eqb_spec (VmBackup.Id v) "") as [Ei | Ei];
    destruct (String.eqb_spec (VmBackup.Id v) (VmBackup.Id other)) as [Eo | Eo];
    destruct (String.eqb_spec (VmBackup.Name v) "") as [Ni | Ni];
    destruct (String.eqb_spec (VmBackup.Name v) (VmBackup.Name other))
      as [No | No];
    cbn; split; intros H; try discriminate; try tauto;
    destruct H as [[? ?] | [? ?]]; congruence.
Qed.

(** X1: [Compare] is symmetric: a request matches an object exactly when
    the object, taken as a request, matches it. *)
Theorem Compare_symmetric (v other : VmBackup.t) :
  VmBackup.Compare v other = VmBackup.Compare other v.
Proof.
  apply eq_true_iff_eq. rewrite !Compare_true_iff.
  split; intros [[? E] | [? E]]; [left | right | left | right];
    (split; [congruence | done]).
Qed.

(** X2: a request whose [Id] and [Name] are both empty matches no
    object, whatever its other fields hold. *)
Theorem Compare_anonymous (v other : VmBackup.t) :
  VmBackup.Id v = "" → VmBackup.Name v = "" →
  VmBackup.Compare v other = false.
Proof.
  intros Hi Hn. apply not_true_iff_false. rewrite Compare_true_iff.
  intros [[? _] | [? _]]; contradiction.
Qed.

Lemma Compare_anonymous_witness :
  VmBackup.Compare (withPowerState "Enabled" VmBackup.zero) (nightly "b-1")
  = false.
Proof. apply Compare_anonymous; reflexivity. Defined.

(** X3: matching is not transitive: an object can match a second by
    [Id] and the second a third by [Name] while the first does not
    match the third. *)
Theorem Compare_not_transitive :
  ∃ a b c : VmBackup.t,
    VmBackup.Compare a b = true ∧ VmBackup.Compare b c = true
    ∧ VmBackup.Compare a c = false.
Proof.
  exists (withRequestId "b-1" (named "weekly")), (nightly "b-1"),
         (nightly "b-2").
  repeat split.
Qed.

(** X4: a request [VmBackup{Id: id}] matches exactly the objects with
    that [Id], and none when [id] is empty: it never matches by name. *)
Theorem Compare_withId_iff (id : string) (b : VmBackup.t) :
  VmBackup.Compare (VmBackup.withId id) b = true
  ↔ id ≠ "" ∧ VmBackup.Id b = id.
Proof.
  rewrite Compare_true_iff. cbn. split.
  - intros [[? ?] | [? _]]; [split; congruence | contradiction].
  - intros [? ?]. left. split; congruence.
Qed.

(** ** More on the runs of the client functions *)

(** Every case of a run against the handler [h]. *)
Ltac crush_with h :=
  repeat (unfold_prog;
          match goal with
          | |- context [h ?o ?w] =>
            let r := fresh "r" in
            destruct (h o w) as [r ?]; cbn [Resp OutVal] in r;
            lazymatch type of r with
            | (_ * _)%type => destruct r as [? ?]
            | _ => idtac
            end
          | |- context [match ?e with Some _ => _ | None => _ end] =>
            is_var e; destruct e
          | |- context [if ?b then _ else _] => destruct b
          | |- context [match ?l with [] => _ | _ :: _ => _ end] =>
            is_var l; destruct l
          end).

Section MoreRuns.
Context {W : Type}.
Variable format_request : VmBackup.t → string.
Variable h : Handler W.

(** X5: [GetBackup] and [GetBackups] only read: the run of either is
    one lookup, with the request as it was given, and has no command,
    no sleep and no wait. *)
Theorem lookups_only_read (backupReq : VmBackup.t) (w : W) :
  ops (trace (run h (GetBackup format_request backupReq) w))
  = [FindFromGetAllObjects backupReq]
  ∧ ops (trace (run h (GetBackups backupReq) w))
    = [FindFromGetAllObjects backupReq].
Proof.
  unfold GetBackup, GetBackups. split; crush_with h; reflexivity.
Qed.

(** X6: [GetBackup] is [GetBackups] narrowed to one object: on the same
    remote state, an error of [GetBackups] is the error of [GetBackup],
    a list of one object is its object, and a list of any other length
    [n] is its error "expected to find a single VmBackup ..., instead
    found [n]". *)
Theorem GetBackup_narrows_GetBackups (backupReq : VmBackup.t) (w : W) :
  result (run h (GetBackup format_request backupReq) w)
  = match result (run h (GetBackups backupReq) w) with
    | (_, Some e) => (None, Some e)
    | ([b], None) => (Some b, None)
    | (backups, None) =>
      (None, Some (singleExpected format_request backupReq (length backups)))
    end.
Proof.
  unfold GetBackup, GetBackups. crush_with h; reflexivity.
Qed.

(** [GetBackups] passes the objects of the lookup on as they are,
    in the same order, with a nil error; when the lookup fails it gives
    the error with an empty list, whatever list came with the error. *)
Theorem GetBackups_passes_on (backup : VmBackup.t) (w : W) :
  result (run h (GetBackups backup) w)
  = match (h (FindFromGetAllObjects backup) w).1 with
    | (_, Some e) => ([], Some e)
    | (backups, None) => (backups, None)
    end.
Proof.
  unfold GetBackups. crush_with h; reflexivity.
Qed.

(** X8: when both commands and the wait succeed, the run of
    [CreateBackup] is, in this order: [backup.create] with the
    parameter map of the request; [backup.set] with the created
    identity as its only parameter; the wait that the request's address
    set selects, for the created identity, the request's power state
    and [createTime] as timeout; the lookup of the created identity. *)
Theorem CreateBackup_sequence (backupReq : VmBackup.t) (createTime : Z)
    (w : W) :
  Forall (λ ev, call_error ev = None ∧ wait_error ev = None)
    (trace (run h (CreateBackup format_request backupReq createTime) w)) →
  ∃ id : string,
    ops (trace (run h (CreateBackup format_request backupReq createTime) w))
    = [ Call "backup.create" (createParams backupReq) OutString;
        Call "backup.set" {[ "id" := PString id ]} OutBool;
        (if decide (VmBackup.WaitForIps backupReq = ∅)
         then waitForPowerStateReached id (VmBackup.PowerState backupReq)
                createTime
         else waitForIPAssignment id (VmBackup.WaitForIps backupReq)
                createTime);
        FindFromGetAllObjects (VmBackup.withId id) ].
Proof.
  rewrite Forall_forall.
  unfold CreateBackup. unfold_prog.
  destruct (h (Printf _ _) w) as [u w0].
  destruct (h (Call "backup.create" _ _) w0) as [[backupId err1] w1].
  destruct err1 as [e1|].
  { intros Hok. exfalso.
    assert (call_error
              {| ev_op := Call "backup.create" (createParams backupReq)
                               OutString;
                 ev_resp := (backupId, Some e1) |} = None) as Hc
      by (apply Hok; cbn; repeat constructor).
    discriminate Hc. }
  unfold_prog.
  destruct (h (Call "backup.set" _ _) w1) as [[success err2] w2].
  destruct err2 as [e2|].
  { intros Hok. exfalso.
    assert (call_error
              {| ev_op := Call "backup.set"
                               (list_to_map [("id", PString backupId)])
                               OutBool;
                 ev_resp := (success, Some e2) |} = None) as Hc
      by (apply Hok; cbn; repeat constructor).
    discriminate Hc. }
  rewrite run_bind. unfold waitForModifyBackup.
  assert (Hid : (list_to_map [("id", PString backupId)] : gmap string PValue)
                = {[ "id" := PString backupId ]}).
  { cbn [list_to_map foldr fst snd]. apply insert_empty. }
  destruct (decide (VmBackup.WaitForIps backupReq = ∅)) as [E | E].
  - rewrite E, map_size_empty. cbn [Nat.eqb]. unfold_prog.
    destruct (h _ w2) as [errw w3].
    destruct errw as [ew|].
    + intros Hok; exfalso; cbn in Hok.
      match type of Hok with
      | ∀ ev, ev ∈ _ :: _ :: _ :: ?e :: _ → _ =>
        assert (wait_error e = None) as Hw
          by (apply Hok; repeat constructor);
        discriminate Hw
      end.
    + intros _. exists backupId. rewrite run_GetBackup.
      destruct (h (FindFromGetAllObjects _) w3) as [[objs errf] w4].
      cbn [fst snd]. rewrite <- Hid.
      destruct errf as [ef|]; [reflexivity|].
      destruct objs as [|b0 [|b1 objs]]; try reflexivity.
      destruct (h (Printf _ _) w4). reflexivity.
  - destruct (size (VmBackup.WaitForIps backupReq) =? 0) eqn:Es.
    { apply Nat.eqb_eq, map_size_empty_iff in Es. contradiction. }
    unfold_prog.
    destruct (h _ w2) as [errw w3].
    destruct errw as [ew|].
    + intros Hok; exfalso; cbn in Hok.
      match type of Hok with
      | ∀ ev, ev ∈ _ :: _ :: _ :: ?e :: _ → _ =>
        assert (wait_error e = None) as Hw
          by (apply Hok; repeat constructor);
        discriminate Hw
      end.
    + intros _. exists backupId. rewrite run_GetBackup.
      destruct (h (FindFromGetAllObjects _) w3) as [[objs errf] w4].
      cbn [fst snd]. rewrite <- Hid.
      destruct errf as [ef|]; [reflexivity|].
      destruct objs as [|b0 [|b1 objs]]; try reflexivity.
      destruct (h (Printf _ _) w4). reflexivity.
Qed.

(** X7: when the wait of [CreateBackup] comes back with an error, that
    error is the result, the wait is the last operation of the run, and
    the run has no lookup: nothing is fetched and nothing is undone. *)
Theorem CreateBackup_wait_error (backupReq : VmBackup.t) (createTime : Z)
    (w : W) (ev : Event) (e : error) :
  ev ∈ trace (run h (CreateBackup format_request backupReq createTime) w) →
  wait_error ev = Some e →
  result (run h (CreateBackup format_request backupReq createTime) w)
    = (None, Some e)
  ∧ last (trace (run h (CreateBackup format_request backupReq createTime) w))
    = Some ev
  ∧ finds (trace (run h (CreateBackup format_request backupReq
                           createTime) w)) = []
  ∧ length (calls (trace (run h (CreateBackup format_request backupReq
                                   createTime) w))) = 2.
Proof.
  unfold CreateBackup, waitForModifyBackup, GetBackup.
  crush_with h; cbn; intros Hin Hw; inv_mem Hin; cbn in Hw;
    try discriminate; injection Hw as ->; repeat split.
Qed.


(** X10: [CreateBackup] reads of its request only [Type], [Name],
    [Vms], [Mode], [Remotes], [Settings], [PowerState] and [WaitForIps]:
    two requests that agree on these, whatever their [Id]s, have the
    same run, operation by operation and answer by answer, and the same
    result. *)
Theorem CreateBackup_ignores_request_Id (req1 req2 : VmBackup.t)
    (createTime : Z) (w : W) :
  VmBackup.Type_ req1 = VmBackup.Type_ req2 →
  VmBackup.Name req1 = VmBackup.Name req2 →
  VmBackup.Vms req1 = VmBackup.Vms req2 →
  VmBackup.Mode req1 = VmBackup.Mode req2 →
  VmBackup.Remotes req1 = VmBackup.Remotes req2 →
  VmBackup.Settings req1 = VmBackup.Settings req2 →
  VmBackup.PowerState req1 = VmBackup.PowerState req2 →
  VmBackup.WaitForIps req1 = VmBackup.WaitForIps req2 →
  run h (CreateBackup format_request req1 createTime) w
  = run h (CreateBackup format_request req2 createTime) w.
Proof.
  destruct req1, req2. cbn. intros. subst. reflexivity.
Qed.

(** X11: with a lookup that gives only objects that compare equal to
    its request, an object that [UpdateBackup] returns has the [Id] of
    the request or, the [Name] being set, its [Name]; a request that has
    neither gets no object back. *)
Theorem UpdateBackup_returns_a_match (backupReq : VmBackup.t) (w : W) :
  lookup_sound h →
  match (result (run h (UpdateBackup format_request backupReq) w)).1 with
  | Some b =>
    (VmBackup.Id backupReq ≠ ""
     ∧ VmBackup.Id b = VmBackup.Id backupReq)
    ∨ (VmBackup.Name backupReq ≠ ""
       ∧ VmBackup.Name b = VmBackup.Name backupReq)
  | None => True
  end.
Proof.
  intros Hsound. unfold UpdateBackup. unfold_prog.
  destruct (h (Call _ _ _) w) as [[success err] w1].
  destruct err as [e|]; [exact I|].
  unfold_prog. destruct (h (Sleep _) w1) as [u w2].
  rewrite run_GetBackup.
  pose proof (Hsound backupReq w2) as Hs.
  destruct (h (FindFromGetAllObjects backupReq) w2) as [[objs errf] w3].
  cbn [fst snd] in *. destruct errf as [ef|]; [exact I|].
  destruct objs as [|b0 [|b1 objs]]; try exact I.
  destruct (h (Printf _ _) w3). cbn.
  apply Forall_cons in Hs as [Hs _].
  apply Compare_true_iff in Hs.
  destruct Hs as [[? ?] | [? ?]]; [left | right]; split; congruence.
Qed.

(** X12: when [backup.create] succeeds but leaves an empty identity,
    [CreateBackup] returns no object: with a lookup that gives only
    objects that compare equal to its request, the final fetch for the
    empty identity cannot find one. *)
Theorem CreateBackup_empty_identity (backupReq : VmBackup.t)
    (createTime : Z) (w : W) :
  lookup_sound h →
  created_id (trace (run h (CreateBackup format_request backupReq
                              createTime) w)) = Some "" →
  (result (run h (CreateBackup format_request backupReq createTime) w)).1
    = None
  ∧ (result (run h (CreateBackup format_request backupReq createTime) w)).2
    ≠ None.
Proof.
  intros Hsound. unfold CreateBackup. unfold_prog.
  destruct (h (Printf _ _) w) as [u w0].
  destruct (h (Call "backup.create" _ _) w0) as [[backupId err1] w1].
  destruct err1 as [e1|]; [cbn; intros _; split; [reflexivity|discriminate]|].
  unfold_prog.
  destruct (h (Call "backup.set" _ _) w1) as [[success err2] w2].
  destruct err2 as [e2|]; [cbn; intros _; split; [reflexivity|discriminate]|].
  rewrite run_bind. unfold waitForModifyBackup.
  destruct (size (VmBackup.WaitForIps backupReq) =? 0); unfold_prog;
    destruct (h _ w2) as [errw w3];
    (destruct errw as [ew|];
     [ cbn; intros _; split; [reflexivity|discriminate]
     | cbn [created_id omap head fmap]; rewrite run_GetBackup;
       pose proof (Hsound (VmBackup.withId backupId) w3) as Hs;
       destruct (h (FindFromGetAllObjects _) w3) as [[objs errf] w4];
       cbn [fst snd] in *;
       destruct errf as [ef|];
       [ cbn; intros _; split; [reflexivity|discriminate]
       | destruct objs as [|b0 [|b1 objs]];
         [ cbn; intros _; split; [reflexivity|discriminate]
         | destruct (h (Printf _ _) w4); cbn; intros [= ->];
           apply Forall_cons in Hs as [Hs _];
           apply Compare_true_iff in Hs as [[Hne _] | [Hne _]];
           cbn in Hne; contradiction
         | cbn; intros _; split; [reflexivity|discriminate] ] ] ]).
Qed.

End MoreRuns.

(** ** More on the data source *)

Lemma append_cons (a : ascii) (p r : string) :
  String a p +:+ r = String a (p +:+ r).
Proof. reflexivity. Qed.

Lemma append_empty (r : string) : EmptyString +:+ r = r.
Proof. reflexivity. Qed.

Lemma prefix_append (p s : string) :
  String.prefix p s = true ↔ ∃ rest : string, s = p +:+ rest.
Proof.
  revert s. induction p as [|a p IH]; intros s.
  - split; [intros _; by exists s | by destruct s].
  - destruct s as [|b s]; cbn.
    + split; [done | intros [rest Hr]; discriminate Hr].
    + destruct (ascii_dec a b) as [<- | Hne].
      * rewrite IH. split; intros [rest Hr]; exists rest;
          rewrite append_cons in *; congruence.
      * split; [done | intros [rest Hr]; rewrite append_cons in Hr;
                       congruence].
Qed.

(** [strings.Contains] decides whether the substring occurs. *)
Lemma Contains_occursIn (s substr : string) :
  strings.Contains s substr = true ↔ occursIn substr s.
Proof.
  unfold occursIn. induction s as [|c s IH].
  - cbn [strings.Contains]. rewrite orb_false_r, prefix_append. split.
    + intros [rest Hr]. by exists EmptyString, rest.
    + intros (before & after & Hs). destruct before; [|discriminate Hs].
      by exists after.
  - cbn [strings.Contains]. rewrite orb_true_iff, IH, prefix_append. split.
    + intros [[rest Hr] | (before & after & Hs)].
      * by exists EmptyString, rest.
      * exists (String c before), after. rewrite append_cons. by rewrite Hs.
    + intros (before & after & Hs). destruct before as [|c' before].
      * left. by exists after.
      * right. exists before, after. rewrite append_cons in Hs. congruence.
Qed.

Section MoreXoa.
Variable rangeOrder : nat → gmap string string → list (string * string).

Lemma backupToMap_cases (i : nat) (b : Backup.t) :
  (short b
   ∧ backupToMap rangeOrder i b
     = Panics ("runtime error: index out of range [1] with length "
               +:+ string_of_int (length (Backup.Static (Backup.Memory b)))))
  ∨ (¬ short b ∧ ∃ m, backupToMap rangeOrder i b = Returns m).
Proof.
  unfold backupToMap, short.
  destruct (splitAddresses _) as [ipv4 ipv6].
  destruct (Backup.Static (Backup.Memory b) !! 1) as [memory_max|] eqn:E.
  - right. apply lookup_lt_Some in E. split; [lia | eauto].
  - left. apply lookup_ge_None in E. split; [lia | reflexivity].
Qed.

Lemma backupToMapList_from_outcome (backups : list Backup.t) (i : nat)
    (result : list (gmap string Value)) :
  match backupToMapList_from rangeOrder i backups result with
  | Returns maps =>
    Forall (λ b, ¬ short b) backups
    ∧ length maps = length result + length backups
  | Panics msg =>
    ∃ done b rest,
      backups = done ++ b :: rest
      ∧ Forall (λ b, ¬ short b) done
      ∧ short b
      ∧ msg = "runtime error: index out of range [1] with length "
              +:+ string_of_int (length (Backup.Static (Backup.Memory b)))
  end.
Proof.
  revert i result. induction backups as [|b backups IH]; intros i result.
  - cbn. split; [constructor | lia].
  - cbn [backupToMapList_from].
    destruct (backupToMap_cases i b) as [[Hs ->] | [Hs [m ->]]].
    + exists [], b, backups. repeat split; [constructor | exact Hs].
    + specialize (IH (S i) (result ++ [m])).
      destruct (backupToMapList_from rangeOrder (S i) backups (result ++ [m]))
        as [maps | msg].
      * destruct IH as [Hok Hlen]. split; [by constructor|].
        rewrite length_app in Hlen. cbn in *. lia.
      * destruct IH as (done & b' & rest & -> & Hok & Hb & ->).
        exists (b :: done), b', rest. repeat split; [by constructor | exact Hb].
Qed.

(** X13: [backupToMapList] panics exactly when some backup has fewer
    than two elements in [Memory.Static]: it then stops at the first
    such backup, with the index-out-of-range message for the length of
    that backup's slice, and returns nothing for the backups before it;
    otherwise it returns as many maps as there are backups. *)
Theorem backupToMapList_outcome (backups : list Backup.t) :
  match backupToMapList rangeOrder backups with
  | Returns maps =>
    Forall (λ b, ¬ short b) backups ∧ length maps = length backups
  | Panics msg =>
    ∃ done b rest,
      backups = done ++ b :: rest
      ∧ Forall (λ b, ¬ short b) done
      ∧ short b
      ∧ msg = "runtime error: index out of range [1] with length "
              +:+ string_of_int (length (Backup.Static (Backup.Memory b)))
  end.
Proof.
  unfold backupToMapList.
  pose proof (backupToMapList_from_outcome backups 0 []) as H.
  destruct (backupToMapList_from rangeOrder 0 backups []); exact H.
Qed.

(** The maps of a returning call, backup by backup. *)
Lemma backupToMapList_from_pointwise (backups : list Backup.t) (i : nat)
    (result maps : list (gmap string Value)) :
  backupToMapList_from rangeOrder i backups result = Returns maps →
  ∃ new, maps = result ++ new
         ∧ Forall2 (λ b m, ∃ j, backupToMap rangeOrder j b = Returns m)
             backups new.
Proof.
  revert i result. induction backups as [|b backups IH]; intros i result.
  - cbn. intros [= <-]. exists []. by rewrite app_nil_r.
  - cbn [backupToMapList_from].
    destruct (backupToMap rangeOrder i b) as [m | msg] eqn:E; [|discriminate].
    intros H. apply IH in H as (new & -> & Hnew).
    exists (m :: new). rewrite <- app_assoc. split; [reflexivity|].
    constructor; [eauto | exact Hnew].
Qed.

Lemma backupToMapList_pointwise (backups : list Backup.t)
    (maps : list (gmap string Value)) :
  backupToMapList rangeOrder backups = Returns maps →
  Forall2 (λ b m, ∃ j, backupToMap rangeOrder j b = Returns m) backups maps.
Proof.
  unfold backupToMapList. intros H.
  apply backupToMapList_from_pointwise in H as (new & -> & Hnew). exact Hnew.
Qed.

(** X14: every map that [backupToMapList] returns has the same sixteen
    keys, and ["resource_set"] beside them exactly for a backup with a
    resource set: no other key is ever present and none is left out,
    also when an address list is empty. *)
Theorem backupToMapList_keys (backups : list Backup.t)
    (maps : list (gmap string Value)) :
  backupToMapList rangeOrder backups = Returns maps →
  Forall2 (λ b m,
             dom m = match Backup.ResourceSet b with
                     | Some _ => {[ "resource_set" ]} ∪ hostKeys
                     | None => hostKeys
                     end)
    backups maps.
Proof.
  intros H. apply backupToMapList_pointwise in H.
  eapply Forall2_impl; [exact H|].
  intros b m [j Hm]. unfold backupToMap in Hm.
  destruct (splitAddresses _) as [ipv4 ipv6].
  destruct (Backup.Static (Backup.Memory b) !! 1); [|discriminate].
  injection Hm as <-.
  destruct (Backup.ResourceSet b).
  - rewrite !dom_insert_L, dom_empty_L. reflexivity.
  - rewrite !dom_insert_L, dom_empty_L. reflexivity.
Qed.

(** X15: in every map that [backupToMapList] returns, ["memory_max"] is
    the second element of the backup's [Memory.Static] (not its
    largest), ["cpus"] is [CPUs.Number], ["resource_set"] is the [Id] of
    the resource set, and the other scalar keys hold the backup's
    fields of the matching names, unchanged. *)
Theorem backupToMapList_fields (backups : list Backup.t)
    (maps : list (gmap string Value)) :
  backupToMapList rangeOrder backups = Returns maps →
  Forall2 (λ b m,
             m !! "memory_max"
             = VInt <$> Backup.Static (Backup.Memory b) !! 1
             ∧ m !! "cpus" = Some (VInt (Backup.Number (Backup.CPUs_ b)))
             ∧ m !! "id" = Some (VString (Backup.Id b))
             ∧ m !! "name_label" = Some (VString (Backup.NameLabel b))
             ∧ m !! "name_description"
               = Some (VString (Backup.NameDescription b))
             ∧ m !! "cloud_config" = Some (VString (Backup.CloudConfig b))
             ∧ m !! "cloud_network_config"
               = Some (VString (Backup.CloudNetworkConfig b))
             ∧ m !! "tags" = Some (VStrings (Backup.Tags b))
             ∧ m !! "affinity_host" = Some (VString (Backup.AffinityHost b))
             ∧ m !! "template" = Some (VString (Backup.Template b))
             ∧ m !! "high_availability" = Some (VString (Backup.HA b))
             ∧ m !! "power_state" = Some (VString (Backup.PowerState b))
             ∧ m !! "host" = Some (VString (Backup.Host b))
             ∧ m !! "auto_poweron" = Some (VBool (Backup.AutoPoweron b))
             ∧ m !! "resource_set"
               = (λ rs, VString (FlatResourceSet.Id rs))
                 <$> Backup.ResourceSet b)
    backups maps.
Proof.
  intros H. apply backupToMapList_pointwise in H.
  eapply Forall2_impl; [exact H|].
  intros b m [j Hm]. unfold backupToMap in Hm.
  destruct (splitAddresses _) as [ipv4 ipv6].
  destruct (Backup.Static (Backup.Memory b) !! 1); [|discriminate].
  injection Hm as <-.
  destruct (Backup.ResourceSet b); repeat split; reflexivity.
Qed.

End MoreXoa.

Lemma elem_ipv4_of (entries : list (string * string)) (a : string) :
  a ∈ ipv4_of entries
  ↔ ∃ k, (k, a) ∈ entries ∧ occursIn "ipv4" k.
Proof.
  unfold ipv4_of. rewrite list_elem_of_fmap. split.
  - intros ([k a'] & -> & Hin). apply list_elem_of_filter in Hin as [Hc Hin].
    exists k. split; [exact Hin | by apply Contains_occursIn].
  - intros (k & Hin & Hc). exists (k, a). split; [reflexivity|].
    apply list_elem_of_filter. split; [by apply Contains_occursIn | exact Hin].
Qed.

Lemma elem_ipv6_of (entries : list (string * string)) (a : string) :
  a ∈ ipv6_of entries
  ↔ ∃ k, (k, a) ∈ entries ∧ ¬ occursIn "ipv4" k ∧ occursIn "ipv6" k.
Proof.
  unfold ipv6_of. rewrite list_elem_of_fmap. split.
  - intros ([k a'] & -> & Hin).
    apply list_elem_of_filter in Hin as [[H4 H6] Hin].
    exists k. cbn in *. split; [exact Hin|]. split.
    + rewrite <- Contains_occursIn. congruence.
    + by apply Contains_occursIn.
  - intros (k & Hin & H4 & H6). exists (k, a). split; [reflexivity|].
    apply list_elem_of_filter. split; [|exact Hin]. cbn. split.
    + apply not_true_iff_false. by rewrite Contains_occursIn.
    + by apply Contains_occursIn.
Qed.

Lemma split_lengths (entries : list (string * string)) :
  length (ipv4_of entries) + length (ipv6_of entries) ≤ length entries.
Proof.
  unfold ipv4_of, ipv6_of. rewrite !length_fmap.
  induction entries as [|[k a] entries IH]; [cbn; lia|].
  rewrite !filter_cons. cbn [fst length].
  destruct (strings.Contains k "ipv4") eqn:E4.
  - rewrite decide_True by done.
    rewrite decide_False by (intros [? _]; done). cbn. lia.
  - rewrite decide_False by done.
    destruct (decide _); cbn; lia.
Qed.

Section MoreAddresses.
Variable rangeOrder : nat → gmap string string → list (string * string).
Hypothesis rangeOrder_perm : ∀ i m, rangeOrder i m ≡ₚ map_to_list m.

(** X16: in every map that [backupToMapList] returns, whatever the
    order of the [range]: an address is in ["ipv4_addresses"] exactly
    when some key of the address map with that address has ["ipv4"] as
    a substring; it is in ["ipv6_addresses"] exactly when some key with
    that address has ["ipv6"] but not ["ipv4"] as a substring, so that a
    key with both counts as IPv4 only; and the two lists together are
    no longer than the address map has entries. *)
Theorem backupToMapList_addresses_by_key (backups : list Backup.t)
    (maps : list (gmap string Value)) :
  backupToMapList rangeOrder backups = Returns maps →
  Forall2 (λ b m,
             ∃ ipv4 ipv6 : list string,
               m !! "ipv4_addresses" = Some (VStrings ipv4)
               ∧ m !! "ipv6_addresses" = Some (VStrings ipv6)
               ∧ (∀ a, a ∈ ipv4
                       ↔ ∃ k, Backup.Addresses b !! k = Some a
                              ∧ occursIn "ipv4" k)
               ∧ (∀ a, a ∈ ipv6
                       ↔ ∃ k, Backup.Addresses b !! k = Some a
                              ∧ ¬ occursIn "ipv4" k ∧ occursIn "ipv6" k)
               ∧ length ipv4 + length ipv6 ≤ size (Backup.Addresses b))
    backups maps.
Proof.
  intros H. apply backupToMapList_pointwise in H.
  eapply Forall2_impl; [exact H|].
  intros b m [j Hm]. unfold backupToMap in Hm.
  rewrite splitAddresses_exact in Hm.
  destruct (Backup.Static (Backup.Memory b) !! 1); [|discriminate].
  injection Hm as <-.
  set (entries := rangeOrder j (Backup.Addresses b)).
  assert (Hentries : ∀ k a, (k, a) ∈ entries
                            ↔ Backup.Addresses b !! k = Some a).
  { intros k a. unfold entries. rewrite rangeOrder_perm.
    apply elem_of_map_to_list. }
  exists (ipv4_of entries), (ipv6_of entries).
  split; [destruct (Backup.ResourceSet b); reflexivity|].
  split; [destruct (Backup.ResourceSet b); reflexivity|].
  split; [|split].
  - intros a. rewrite elem_ipv4_of.
    split; intros (k & Hk & Hc); exists k; split;
      solve [by apply Hentries | exact Hc].
  - intros a. rewrite elem_ipv6_of.
    split; intros (k & Hk & Hc); exists k; split;
      solve [by apply Hentries | exact Hc].
  - rewrite <- length_map_to_list, <- (rangeOrder_perm j).
    apply split_lengths.
Qed.

End MoreAddresses.

(** ** More on the JSON form of a resource set *)

Lemma byte_code (a : ascii) : Json.byte (Json.code a) = a.
Proof. apply ascii_N_embedding. Qed.

Lemma bytes_codes (s : string) : Json.bytes (Json.codes s) = s.
Proof.
  induction s as [|a s IH]; [reflexivity|].
  cbn [Json.codes Json.bytes]. by rewrite byte_code, IH.
Qed.

Lemma bytes_app (l1 l2 : list N) :
  Json.bytes (l1 ++ l2) = Json.bytes l1 +:+ Json.bytes l2.
Proof.
  induction l1 as [|n l1 IH]; [reflexivity|].
  cbn [app Json.bytes]. by rewrite append_cons, IH.
Qed.

Lemma codes_app (s1 s2 : string) :
  Json.codes (s1 +:+ s2) = Json.codes s1 ++ Json.codes s2.
Proof.
  induction s1 as [|a s1 IH]; [reflexivity|].
  rewrite append_cons. cbn [Json.codes app]. by rewrite IH.
Qed.

Lemma appendLoop_plain (src : list N) :
  Forall (λ b, Json.htmlSafeSet b = true) src →
  Json.appendLoop 0 src = src.
Proof.
  induction 1 as [|b src Hb _ IH]; [reflexivity|].
  cbn [Json.appendLoop]. rewrite Hb, IH.
  unfold Json.htmlSafeSet in Hb.
  apply andb_prop in Hb as [Hb _]. apply andb_prop in Hb as [Hb _].
  apply andb_prop in Hb as [Hb _]. apply andb_prop in Hb as [Hb _].
  apply andb_prop in Hb as [Hb _]. apply andb_prop in Hb as [_ Hb].
  unfold Json.RuneSelf. rewrite Hb. reflexivity.
Qed.

(** X17: an identifier of plain bytes (printable ASCII other than the
    quote, the backslash, [<], [>] and [&]) that is not empty is
    written as it is between two quotes: nothing in it is escaped. *)
Theorem MarshalJSON_plain (rs : FlatResourceSet.t) :
  plain (FlatResourceSet.Id rs) →
  FlatResourceSet.Id rs ≠ "" →
  FlatResourceSet.MarshalJSON rs
  = (Json.bytes [Json.quote] +:+ FlatResourceSet.Id rs
     +:+ Json.bytes [Json.quote], None).
Proof.
  destruct rs as [id]. cbn [FlatResourceSet.Id]. intros Hp Hne.
  unfold FlatResourceSet.MarshalJSON. cbn [FlatResourceSet.Id].
  destruct id as [|a id]; [done|]. cbn [String.length Nat.eqb].
  unfold json_Marshal, Json.appendString.
  rewrite (appendLoop_plain _ Hp).
  change (Json.quote :: Json.codes (String a id) ++ [Json.quote])
    with ([Json.quote] ++ Json.codes (String a id) ++ [Json.quote]).
  by rewrite !bytes_app, bytes_codes.
Qed.

Lemma MarshalJSON_plain_witness :
  FlatResourceSet.MarshalJSON {| FlatResourceSet.Id := "rs-1" |}
  = (Json.bytes [Json.quote] +:+ "rs-1" +:+ Json.bytes [Json.quote], None).
Proof.
  apply (MarshalJSON_plain {| FlatResourceSet.Id := "rs-1" |}).
  - vm_compute. repeat constructor.
  - discriminate.
Defined.

Lemma codes_inj (s1 s2 : string) : Json.codes s1 = Json.codes s2 → s1 = s2.
Proof. intros H. by rewrite <- (bytes_codes s1), <- (bytes_codes s2), H. Qed.

(** The bytes written for a plain identifier that is not empty. *)
Lemma MarshalJSON_plain_bytes (rs : FlatResourceSet.t) :
  plain (FlatResourceSet.Id rs) →
  FlatResourceSet.Id rs ≠ "" →
  FlatResourceSet.MarshalJSON rs
  = (Json.bytes (Json.quote :: Json.codes (FlatResourceSet.Id rs)
                 ++ [Json.quote]), None).
Proof.
  destruct rs as [id]. cbn [FlatResourceSet.Id]. intros Hp Hne.
  unfold FlatResourceSet.MarshalJSON. cbn [FlatResourceSet.Id].
  destruct id as [|a id]; [done|]. cbn [String.length Nat.eqb].
  unfold json_Marshal, Json.appendString.
  by rewrite (appendLoop_plain _ Hp).
Qed.

Lemma bytes_quoted_inj (l1 l2 : list N) :
  Forall (λ b, (b < 256)%N) l1 → Forall (λ b, (b < 256)%N) l2 →
  Json.bytes (Json.quote :: l1 ++ [Json.quote])
  = Json.bytes (Json.quote :: l2 ++ [Json.quote]) →
  l1 = l2.
Proof.
  intros H1 H2 H. cbn [Json.bytes] in H. injection H as H.
  rewrite !bytes_app in H.
  assert (Hc : ∀ l, Forall (λ b, (b < 256)%N) l → Json.codes (Json.bytes l) = l).
  { induction 1 as [|b l Hb _ IH]; [reflexivity|].
    cbn [Json.bytes Json.codes]. rewrite IH. f_equal.
    by apply N_ascii_embedding. }
  apply (f_equal Json.codes) in H. rewrite !codes_app in H.
  rewrite (Hc l1 H1), (Hc l2 H2) in H.
  by apply app_inv_tail in H.
Qed.

Lemma codes_below (s : string) : Forall (λ b, (b < 256)%N) (Json.codes s).
Proof.
  induction s as [|a s IH]; constructor; [apply N_ascii_bounded | exact IH].
Qed.

(** X18: on identifiers that are empty or plain, [MarshalJSON] loses
    nothing: two resource sets with the same JSON form have the same
    [Id], and only the empty [Id] gives [null]. *)
Theorem MarshalJSON_injective (rs1 rs2 : FlatResourceSet.t) :
  plain (FlatResourceSet.Id rs1) →
  plain (FlatResourceSet.Id rs2) →
  FlatResourceSet.MarshalJSON rs1 = FlatResourceSet.MarshalJSON rs2 →
  FlatResourceSet.Id rs1 = FlatResourceSet.Id rs2.
Proof.
  intros H1 H2.
  destruct (decide (FlatResourceSet.Id rs1 = "")) as [E1 | E1];
    destruct (decide (FlatResourceSet.Id rs2 = "")) as [E2 | E2].
  - congruence.
  - rewrite (MarshalJSON_plain_bytes rs2 H2 E2).
    destruct rs1 as [id1]. cbn in E1. subst id1. discriminate.
  - rewrite (MarshalJSON_plain_bytes rs1 H1 E1).
    destruct rs2 as [id2]. cbn in E2. subst id2. discriminate.
  - rewrite (MarshalJSON_plain_bytes rs1 H1 E1),
      (MarshalJSON_plain_bytes rs2 H2 E2).
    intros [= H]. apply codes_inj.
    apply bytes_quoted_inj; [apply codes_below | apply codes_below |].
    cbn [Json.bytes]. by rewrite H.
Qed.

Lemma MarshalJSON_injective_witness :
  FlatResourceSet.Id {| FlatResourceSet.Id := "rs-1" |}
  = FlatResourceSet.Id {| FlatResourceSet.Id := "rs-1" |}.
Proof.
  apply MarshalJSON_injective.
  - vm_compute. repeat constructor.
  - vm_compute. repeat constructor.
  - reflexivity.
Defined.

Lemma DecodeRuneInString_copy (s0 : N) (t : list N) :
  (0x80 ≤ s0)%N →
  (Json.DecodeRuneInString (s0 :: t)).2 ≤ 4
  ∧ Forall (λ b, (0x80 ≤ b)%N)
      (take (Json.DecodeRuneInString (s0 :: t)).2 (s0 :: t)).
Proof.
  intros H0. unfold Json.DecodeRuneInString, Json.first, Json.cont.
  repeat case_match; subst; cbn [snd take];
    repeat match goal with
    | H : (_, _) = (_, _) |- _ => injection H as <- <-
    | H : Json.acceptRanges _ = _ |- _ => vm_compute in H
    end;
    (split; [lia|]); repeat constructor; try assumption.
  all: repeat match goal with
       | H : (_ || _)%bool = false |- _ => apply orb_false_elim in H as [? ?]
       | H : negb _ = false |- _ => apply negb_false_iff in H
       | H : (_ && _)%bool = true |- _ => apply andb_prop in H as [? ?]
       | H : (_ <? _)%N = false |- _ => apply N.ltb_ge in H
       | H : (_ <? _)%N = true |- _ => apply N.ltb_lt in H
       | H : (_ <=? _)%N = false |- _ => apply N.leb_gt in H
       | H : (_ =? _)%N = true |- _ => apply N.eqb_eq in H
       | H : (_ <=? _)%N = true |- _ => apply N.leb_le in H
       end; try lia.
Qed.

Lemma unsafeByte_false_iff (b : N) :
  unsafeByte b = false ↔ (0x20 ≤ b ∧ b ≠ 0x26 ∧ b ≠ 0x3C ∧ b ≠ 0x3E)%N.
Proof.
  unfold unsafeByte. rewrite !orb_false_iff, N.ltb_ge, !N.eqb_neq. tauto.
Qed.

Lemma fine_intro (b : N) :
  (0x20 ≤ b < 256)%N → b ≠ 0x26%N → b ≠ 0x3C%N → b ≠ 0x3E%N → fine b.
Proof. intros. split; [lia | apply unsafeByte_false_iff; lia]. Qed.

Lemma hex_fine (n : N) : (n < 16)%N → fine (Json.hex n).
Proof.
  intros Hn. unfold Json.hex.
  destruct (N.ltb_spec n 10); apply fine_intro; lia.
Qed.

Lemma nibbles (b : N) :
  (b < 256)%N → (N.shiftr b 4 < 16)%N ∧ (N.land b 0xF < 16)%N.
Proof.
  intros Hb. split.
  - rewrite N.shiftr_div_pow2. apply N.Div0.div_lt_upper_bound. cbn. lia.
  - change 0xF%N with (N.ones 4). rewrite N.land_ones.
    apply N.mod_lt. discriminate.
Qed.

Lemma low_nibble (c : N) : (N.land c 0xF < 16)%N.
Proof.
  change 0xF%N with (N.ones 4). rewrite N.land_ones.
  apply N.mod_lt. discriminate.
Qed.

Ltac split_all := repeat first [apply Forall_nil_2 | apply Forall_cons_2].

Lemma escapeByte_fine (b : N) :
  (b < 256)%N → Forall fine (Json.escapeByte b).
Proof.
  intros Hb. destruct (nibbles b Hb) as [Hh Hl].
  unfold Json.escapeByte.
  repeat case_match; repeat constructor;
    try (apply fine_intro; lia); try by apply hex_fine.
  all: apply orb_prop in H as [H | H]; apply N.eqb_eq in H; subst;
    apply fine_intro; lia.
Qed.

Lemma htmlSafeSet_fine (b : N) : Json.htmlSafeSet b = true → fine b.
Proof.
  unfold Json.htmlSafeSet. rewrite !andb_true_iff, !negb_true_iff.
  rewrite N.leb_le, N.ltb_lt, !N.eqb_neq. intros. apply fine_intro; lia.
Qed.

Lemma appendLoop_fine (src : list N) (skip : nat) :
  Forall (λ b, (b < 256)%N) src →
  Forall fine (Json.appendLoop skip src).
Proof.
  revert skip. induction src as [|b rest IH]; intros skip Hsrc.
  - constructor.
  - pose proof Hsrc as Hall. apply Forall_cons in Hsrc as [Hb Hrest].
    cbn [Json.appendLoop]. destruct skip as [|k]; [|by apply IH].
    destruct (N.ltb_spec b Json.RuneSelf) as [Hlow | Hhigh].
    + apply Forall_app. split; [|by apply IH].
      destruct (Json.htmlSafeSet b) eqn:Hs.
      * split_all. by apply htmlSafeSet_fine.
      * by apply escapeByte_fine.
    + change (take 4 (b :: rest)) with (b :: take 3 rest).
      pose proof (DecodeRuneInString_copy b (take 3 rest) Hhigh)
        as [Hsize Hcopy].
      destruct (Json.DecodeRuneInString (b :: take 3 rest)) as [c size].
      cbn [snd] in *.
      destruct ((c =? Json.RuneError)%N && (size =? 1)).
      { apply Forall_app. split; [|by apply IH].
        split_all; apply fine_intro; lia. }
      destruct ((c =? 0x2028) || (c =? 0x2029))%N.
      { apply Forall_app. split; [|by apply IH].
        split_all; try (apply fine_intro; lia).
        apply hex_fine, low_nibble. }
      apply Forall_app. split; [|by apply IH].
      change (b :: take 3 rest) with (take 4 (b :: rest)) in Hcopy.
      rewrite take_take, Nat.min_l in Hcopy by exact Hsize.
      apply Forall_forall. intros x Hx.
      split.
      * eapply Forall_forall in Hx; [exact Hx | by apply Forall_take].
      * eapply Forall_forall in Hcopy; [|exact Hx]. cbn in Hcopy.
        apply unsafeByte_false_iff. lia.
Qed.

Lemma codes_bytes (l : list N) :
  Forall (λ b, (b < 256)%N) l → Json.codes (Json.bytes l) = l.
Proof.
  induction 1 as [|b l Hb _ IH]; [reflexivity|].
  cbn [Json.bytes Json.codes]. rewrite IH. f_equal.
  by apply N_ascii_embedding.
Qed.

Lemma codes_bounded (s : string) : Forall (λ b, (b < 256)%N) (Json.codes s).
Proof.
  induction s as [|a s IH]; constructor; [apply N_ascii_bounded | exact IH].
Qed.

(** X19: [MarshalJSON] never fails, and what it writes never holds a
    control character (a byte below 32) nor one of [<], [>] and [&],
    whatever bytes the [Id] is made of: the JSON form is one line and
    safe to embed in HTML. *)
Theorem MarshalJSON_never_unsafe (rs : FlatResourceSet.t) :
  (FlatResourceSet.MarshalJSON rs).2 = None
  ∧ Forall (λ b, unsafeByte b = false)
      (Json.codes (FlatResourceSet.MarshalJSON rs).1).
Proof.
  destruct rs as [id]. unfold FlatResourceSet.MarshalJSON.
  cbn [FlatResourceSet.Id].
  destruct id as [|a id]; [split; [reflexivity | vm_compute; repeat constructor]|].
  cbn [String.length Nat.eqb]. split; [reflexivity|].
  unfold json_Marshal, Json.appendString. cbn [fst].
  pose proof (appendLoop_fine (Json.codes (String a id)) 0
                (codes_bounded _)) as Hfine.
  assert (Hall : Forall fine (Json.quote :: Json.appendLoop 0
                                (Json.codes (String a id)) ++ [Json.quote])).
  { constructor; [apply fine_intro; unfold Json.quote; lia|].
    apply Forall_app. split; [exact Hfine|].
    split_all. apply fine_intro; unfold Json.quote; lia. }
  rewrite codes_bytes by (eapply Forall_impl; [exact Hall | by intros ? [? _]]).
  eapply Forall_impl; [exact Hall | by intros ? [_ ?]].
Qed.

(** ** The cloud-config check *)

(** X20: [warnOnInvalidCloudConfig] logs nothing exactly when the
    content is sniffed as gzip, or starts with [#cloud-config], or
    starts with [Content-Type] and holds [multipart/] somewhere; in
    every other case it logs a warning. *)
Theorem warnOnInvalidCloudConfig_silent (DetectContentType : string → string)
    (cloudConfig : string) :
  warnOnInvalidCloudConfig DetectContentType cloudConfig = []
  ↔ DetectContentType cloudConfig = "application/x-gzip"
    ∨ (∃ rest, cloudConfig = "#cloud-config" +:+ rest)
    ∨ ((∃ rest, cloudConfig = "Content-Type" +:+ rest)
       ∧ occursIn "multipart/" cloudConfig).
Proof.
  unfold warnOnInvalidCloudConfig, HasPrefix.
  destruct (String.eqb_spec (DetectContentType cloudConfig)
              "application/x-gzip") as [Eg | Eg]; [tauto|].
  destruct (String.prefix "Content-Type" cloudConfig) eqn:Ec.
  - apply prefix_append in Ec.
    destruct (strings.Contains cloudConfig "multipart/") eqn:Em; cbn.
    + apply Contains_occursIn in Em. tauto.
    + split; [discriminate|].
      intros [? | [[rest Hr] | [_ Hm]]]; [contradiction | |].
      * destruct Ec as [rest' Hr']. rewrite Hr in Hr'. discriminate Hr'.
      * apply Contains_occursIn in Hm. congruence.
  - destruct (String.prefix "#cloud-config" cloudConfig) eqn:Eh; cbn.
    + apply prefix_append in Eh. tauto.
    + split; [discriminate|].
      intros [? | [Hh | [Hc _]]]; [contradiction | |].
      * apply prefix_append in Hh. congruence.
      * apply prefix_append in Hc. congruence.
Qed.

(** ** More concrete runs *)

(** X7, witness: a remote side whose wait times out. *)
Lemma CreateBackup_wait_error_witness :
  result (run remote (CreateBackup show (nightly "") (300 * Second)) stuck)
    = (None, Some tooSlow)
  ∧ last (trace (run remote (CreateBackup show (nightly "") (300 * Second))
                     stuck))
    = Some {| ev_op := waitForPowerStateReached "b-1" "Enabled"
                         (300 * Second);
              ev_resp := Some tooSlow |}
  ∧ finds (trace (run remote (CreateBackup show (nightly "") (300 * Second))
                      stuck)) = []
  ∧ length (calls (trace (run remote (CreateBackup show (nightly "")
                                        (300 * Second)) stuck))) = 2.
Proof.
  apply (CreateBackup_wait_error show remote (nightly "") (300 * Second)
           stuck).
  - vm_compute. do 3 right. left.
  - reflexivity.
Defined.

(** X8, witness: a remote side where everything succeeds. *)
Lemma CreateBackup_sequence_witness :
  ∃ id : string,
    ops (trace (run remote (CreateBackup show (nightly "") (300 * Second))
                    single))
    = [ Call "backup.create" (createParams (nightly "")) OutString;
        Call "backup.set" {[ "id" := PString id ]} OutBool;
        (if decide (VmBackup.WaitForIps (nightly "") = ∅)
         then waitForPowerStateReached id (VmBackup.PowerState (nightly ""))
                (300 * Second)
         else waitForIPAssignment id (VmBackup.WaitForIps (nightly ""))
                (300 * Second));
        FindFromGetAllObjects (VmBackup.withId id) ].
Proof.
  apply (CreateBackup_sequence show remote (nightly "") (300 * Second) single).
  vm_compute. repeat constructor.
Defined.

(** X10, witness: two requests that differ in their [Id] only. *)
Lemma CreateBackup_ignores_request_Id_witness :
  run remote (CreateBackup show (nightly "b-1") (300 * Second)) single
  = run remote (CreateBackup show (nightly "b-2") (300 * Second)) single.
Proof.
  apply (CreateBackup_ignores_request_Id show remote (nightly "b-1")
           (nightly "b-2")); reflexivity.
Defined.

(** X11, witness: an update that names the identity [b-9], found again
    by its name alone. *)
Lemma UpdateBackup_returns_a_match_witness :
  match (result (run remote (UpdateBackup show renamed) single)).1 with
  | Some b =>
    (VmBackup.Id renamed ≠ "" ∧ VmBackup.Id b = VmBackup.Id renamed)
    ∨ (VmBackup.Name renamed ≠ ""
       ∧ VmBackup.Name b = VmBackup.Name renamed)
  | None => True
  end.
Proof.
  apply (UpdateBackup_returns_a_match show remote renamed single).
  exact remote_lookup_sound.
Defined.

Example UpdateBackup_matched_by_name :
  (result (run remote (UpdateBackup show renamed) single)).1
  = Some (nightly "b-1")
  ∧ VmBackup.Id (nightly "b-1") ≠ VmBackup.Id renamed.
Proof. split; [reflexivity | discriminate]. Qed.

(** X12, witness: a remote side whose [backup.create] leaves no
    identity. *)
Lemma CreateBackup_empty_identity_witness :
  (result (run remote (CreateBackup show (nightly "") (300 * Second))
               nameless)).1 = None
  ∧ (result (run remote (CreateBackup show (nightly "") (300 * Second))
                 nameless)).2 ≠ None.
Proof.
  apply (CreateBackup_empty_identity show remote (nightly "") (300 * Second)
           nameless).
  - exact remote_lookup_sound.
  - reflexivity.
Defined.

Lemma inOrder_perm (i : nat) (m : gmap string string) :
  inOrder i m ≡ₚ map_to_list m.
Proof. reflexivity. Qed.

(** X14, witness: the two backups. *)
Lemma backupToMapList_keys_witness :
  ∃ maps,
    backupToMapList inOrder twoBackups = Returns maps
    ∧ Forall2 (λ b m,
                 dom m = match Backup.ResourceSet b with
                         | Some _ => {[ "resource_set" ]} ∪ hostKeys
                         | None => hostKeys
                         end)
        twoBackups maps.
Proof.
  eexists. split; [reflexivity|].
  apply (backupToMapList_keys inOrder twoBackups). reflexivity.
Defined.

(** X15, witness: the two backups. *)
Lemma backupToMapList_fields_witness :
  ∃ maps,
    backupToMapList inOrder twoBackups = Returns maps
    ∧ Forall2 (λ b m,
                 m !! "memory_max"
                 = VInt <$> Backup.Static (Backup.Memory b) !! 1
                 ∧ m !! "cpus" = Some (VInt (Backup.Number (Backup.CPUs_ b)))
                 ∧ m !! "id" = Some (VString (Backup.Id b))
                 ∧ m !! "name_label" = Some (VString (Backup.NameLabel b))
                 ∧ m !! "name_description"
                   = Some (VString (Backup.NameDescription b))
                 ∧ m !! "cloud_config" = Some (VString (Backup.CloudConfig b))
                 ∧ m !! "cloud_network_config"
                   = Some (VString (Backup.CloudNetworkConfig b))
                 ∧ m !! "tags" = Some (VStrings (Backup.Tags b))
                 ∧ m !! "affinity_host"
                   = Some (VString (Backup.AffinityHost b))
                 ∧ m !! "template" = Some (VString (Backup.Template b))
                 ∧ m !! "high_availability" = Some (VString (Backup.HA b))
                 ∧ m !! "power_state" = Some (VString (Backup.PowerState b))
                 ∧ m !! "host" = Some (VString (Backup.Host b))
                 ∧ m !! "auto_poweron" = Some (VBool (Backup.AutoPoweron b))
                 ∧ m !! "resource_set"
                   = (λ rs, VString (FlatResourceSet.Id rs))
                     <$> Backup.ResourceSet b)
        twoBackups maps.
Proof.
  eexists. split; [reflexivity|].
  apply (backupToMapList_fields inOrder twoBackups). reflexivity.
Defined.

(** X16, witness: the two backups. *)
Lemma backupToMapList_addresses_by_key_witness :
  ∃ maps,
    backupToMapList inOrder twoBackups = Returns maps
    ∧ Forall2 (λ b m,
                 ∃ ipv4 ipv6 : list string,
                   m !! "ipv4_addresses" = Some (VStrings ipv4)
                   ∧ m !! "ipv6_addresses" = Some (VStrings ipv6)
                   ∧ (∀ a, a ∈ ipv4
                           ↔ ∃ k, Backup.Addresses b !! k = Some a
                                  ∧ occursIn "ipv4" k)
                   ∧ (∀ a, a ∈ ipv6
                           ↔ ∃ k, Backup.Addresses b !! k = Some a
                                  ∧ ¬ occursIn "ipv4" k ∧ occursIn "ipv6" k)
                   ∧ length ipv4 + length ipv6 ≤ size (Backup.Addresses b))
        twoBackups maps.
Proof.
  eexists. split; [reflexivity|].
  apply (backupToMapList_addresses_by_key inOrder inOrder_perm twoBackups).
  reflexivity.
Defined.

Example warn_plain_script :
  length (warnOnInvalidCloudConfig sniffText "echo hello") = 2
  ∧ warnOnInvalidCloudConfig sniffText "#cloud-config" = []
  ∧ warnOnInvalidCloudConfig sniffText
      "Content-Type: multipart/mixed; boundary=x" = []
  ∧ length (warnOnInvalidCloudConfig sniffText "Content-Type: text/x-shellscript")
    = 2.
Proof. repeat split. Qed.

Example both_families_count_as_ipv4 :
  splitAddresses [("0/ipv4-ipv6", "a"); ("1/ipv6", "b"); ("mac", "c")]
  = (["a"], ["b"]).
Proof. reflexivity. Qed.

(** ** The JSON form read back *)



















(** An identifier of ASCII bytes is well-formed UTF-8. *)
Lemma validUTF8_ascii (src : list N) :
  Forall (λ b, (b < 0x80)%N) src → validUTF8 0 src = true.
Proof.
  induction 1 as [|b src Hb _ IH]; [reflexivity|].
  cbn [validUTF8]. apply N.ltb_lt in Hb. unfold Json.RuneSelf.
  by rewrite Hb.
Qed.


Example marshal_reads_back :
  JsonText.unquote
    (Json.codes (FlatResourceSet.MarshalJSON {| FlatResourceSet.Id := "a<b" |}).1)
  = Some (Json.codes "a<b").
Proof. reflexivity. Qed.

(** An invalid byte is written as the escape of U+FFFD and reads back
    as its three bytes. *)
Example marshal_invalid_byte :
  JsonText.unquote
    (Json.codes (FlatResourceSet.MarshalJSON
                   {| FlatResourceSet.Id := Json.bytes [0x61; 0xFF]%N |}).1)
  = Some [0x61; 0xEF; 0xBF; 0xBD]%N.
Proof. reflexivity. Qed.

(** ** The cardinality of a lookup *)

Section Cardinality.
Context {W : Type}.
Variable format_request : VmBackup.t → string.
Variable h : Handler W.

(** C3: with a lookup that reports no match by a [NotFound] error, as
    the callers in [backup.go] expect of it, [GetBackup] returns the
    object when the lookup gives exactly one; when nothing matches it
    returns a [NotFound] error, the lookup's; when several match it
    returns its own error, of the type [errors.New] builds, with the
    number found in its text, which [err.(NotFound)] tells from the
    error for no match; any other error of the lookup is passed on. *)
Theorem GetBackup_cardinality (backupReq : VmBackup.t) (w : W) :
  reports_missing h →
  let answer := (h (FindFromGetAllObjects backupReq) w).1 in
  let r := result (run h (GetBackup format_request backupReq) w) in
  match answer.1, answer.2 with
  | [], _ => r.1 = None ∧ isNotFound r.2 = true
  | [b], None => r = (Some b, None)
  | _ :: _ :: _, None =>
    r = (None, Some (singleExpected format_request backupReq
                       (length answer.1)))
    ∧ dynType <$> r.2 = Some errorString
    ∧ isNotFound r.2 = false
  | _, Some e => r = (None, Some e)
  end.
Proof.
  intros Hm. rewrite run_GetBackup.
  specialize (Hm backupReq w).
  destruct (h (FindFromGetAllObjects backupReq) w) as [[objs err] w1].
  cbn [fst snd] in *.
  destruct objs as [|b0 [|b1 objs]].
  - specialize (Hm eq_refl). destruct err as [e|]; [|discriminate Hm].
    split; [reflexivity | exact Hm].
  - destruct err as [e|]; [reflexivity|].
    destruct (h _ w1). reflexivity.
  - destruct err as [e|]; [reflexivity|]. repeat split.
Qed.
End Cardinality.

Lemma finder_reports_missing : reports_missing finder.
Proof.
  intros obj w. cbn. destruct (lookup (objects w) obj); [reflexivity|].
  discriminate.
Qed.

(** C3, witness: no match, one match and two matches on a remote side
    that holds two backups of the same name. *)
Lemma GetBackup_cardinality_witness :
  ((result (run finder (GetBackup show (VmBackup.withId "b-9")) healthy)).1
     = None
   ∧ isNotFound (result (run finder (GetBackup show (VmBackup.withId "b-9"))
                             healthy)).2 = true)
  ∧ result (run finder (GetBackup show (VmBackup.withId "b-1")) healthy)
    = (Some (nightly "b-1"), None)
  ∧ (result (run finder (GetBackup show (named "nightly")) healthy)
     = (None, Some (singleExpected show (named "nightly") 2))
     ∧ dynType <$> (result (run finder (GetBackup show (named "nightly"))
                                healthy)).2 = Some errorString
     ∧ isNotFound (result (run finder (GetBackup show (named "nightly"))
                               healthy)).2 = false).
Proof.
  split; [|split].
  - exact (GetBackup_cardinality show finder (VmBackup.withId "b-9") healthy
             finder_reports_missing).
  - exact (GetBackup_cardinality show finder (VmBackup.withId "b-1") healthy
             finder_reports_missing).
  - exact (GetBackup_cardinality show finder (named "nightly") healthy
             finder_reports_missing).
Defined.



